(** * pyTwitchAPI: the authentication and resilient-request core of [twitchAPI/twitch.py]

    A shallow embedding of the [Twitch] client class: the credential fields,
    [__generate_header], [refresh_used_token], [__generate_app_token],
    [authenticate_app], [set_user_authentication], the token getters and the
    five [__api_*_request] executors, followed by the properties of the
    retry/refresh state machine.

    Python objects are mutated in place and exceptions leave earlier
    mutations visible, so the methods are written in a state-and-exception
    monad over a [Machine]: the client object, the outside world and a
    chronological log of the calls that left the process. *)

From stdpp Require Import base decidable option list strings gmap pretty.
From Equations Require Import Equations.
From Stdlib Require Import ZArith Lia.

Local Open Scope string_scope.
Local Open Scope list_scope.
Local Open Scope Z_scope.

(** ** Data model *)

(** [AuthType] comes from [twitchAPI/types.py]; [twitch.py] only ever tests
    for [APP] and [USER], every other member falls through to the last
    branch of [__generate_header]. *)
Inductive AuthType := NONE | USER | APP.

#[global] Instance AuthType_eq_dec : EqDecision AuthType.
Proof. solve_decision. Defined.

(** The exceptions raised in [twitch.py], each with its message.
    [TypeError] is what Python raises when a value that is not a dict is
    subscripted by a [str]. [ForeignException] stands for anything raised by
    a collaborator that is not one of the named classes. *)
Inductive Exception :=
| UnauthorizedException (msg : string)
| MissingScopeException (msg : string)
| TwitchAuthorizationException (msg : string)
| TwitchBackendException (msg : string)
| ValueError (msg : string)
| TypeError (msg : string)
| ForeignException (msg : string).

(** The HTTP verbs of the five executors. *)
Inductive Method := GET | POST | PUT | PATCH | DELETE.

(** A value found in a decoded JSON object: [null] (Python's [None]), a
    string, or anything else (number, boolean, list, dict), which the code
    only ever formats, given by its [str()]. *)
Inductive JsonValue :=
| JNull
| JString (s : string)
| JOther (repr : string).

(** A decoded JSON body: a dict, or any other value. Of the latter only
    one thing is used: subscripting it by a [str] raises [TypeError], with
    the message carried here. *)
Inductive JsonDoc :=
| JDict (fields : gmap string JsonValue)
| JNotDict (type_error : string).

(** The empty dict [{}]. *)
#[global] Instance JsonDoc_empty : Empty JsonDoc := JDict ∅.

(** What the code reads from a [requests.Response]: [status_code], [text]
    and [json()]. [json] is [None] when the body does not parse (the
    [ValueError] of [result.json()]), otherwise the decoded body. *)
Record Response := mkResponse {
  status_code : Z;
  text : string;
  json : option JsonDoc
}.

(** Result of running a method: a value, or a raised exception. *)
Inductive outcome (A : Type) :=
| Return (a : A)
| Raise (e : Exception).
Arguments Return {A} a.
Arguments Raise {A} e.

(** [str(x)] of an [Optional[str]] inside an f-string. *)
Definition py_str (o : option string) : string :=
  match o with
  | Some s => s
  | None => "None"
  end.

(** A JSON value stored as a token. The client formats its tokens and does
    nothing else with them, so a token is kept as what [str()] gives for it,
    with [None] apart: [py_str (as_token v)] is [str(v)]. *)
Definition as_token (v : JsonValue) : option string :=
  match v with
  | JNull => None
  | JString s => Some s
  | JOther repr => Some repr
  end.

(** Everything [twitch.py] imports or talks to and that lives outside of it:
    the [AuthScope] enum of [types.py] with its [.name], [build_scope],
    [build_url] and [TWITCH_AUTH_BASE_URL] of [helper.py], the [requests]
    library, and [refresh_access_token] of [oauth.py]. The network is a
    deterministic transformer of an arbitrary [World]: a server may answer
    each call however it likes, depending on all it has seen. Every request
    gets a response; exceptions of the transport itself (no connection,
    timeout) are not part of the model. *)
Class Collaborators := {
  AuthScope : Type;
  AuthScope_eq_dec :: EqDecision AuthScope;
  scope_name : AuthScope -> string;
  build_scope : list AuthScope -> string;
  build_url : string -> list (string * string) -> string;
  TWITCH_AUTH_BASE_URL : string;
  Body : Type;
  World : Type;
  requests_request :
    Method -> string -> option (gmap string string) -> option Body ->
    World -> Response * World;
  refresh_access_token :
    option string -> string -> string ->
    World -> outcome (string * string) * World
}.

Section Client.
Context {C : Collaborators}.

(** The fields of a [Twitch] instance. *)
Record Twitch := mkTwitch {
  app_id : string;
  app_secret : string;
  app_auth_token : option string;
  app_auth_scope : list AuthScope;
  has_app_auth : bool;
  user_auth_token : option string;
  user_auth_refresh_token : option string;
  user_auth_scope : list AuthScope;
  has_user_auth : bool;
  auto_refresh_auth : bool
}.

(** [Twitch(app_id, app_secret)]: the class-level defaults, then [__init__]. *)
Definition Twitch_init (id secret : string) : Twitch :=
  {| app_id := id; app_secret := secret;
     app_auth_token := None; app_auth_scope := []; has_app_auth := false;
     user_auth_token := None; user_auth_refresh_token := None;
     user_auth_scope := []; has_user_auth := false;
     auto_refresh_auth := true |}.

Definition set_app_auth_token (v : option string) (t : Twitch) : Twitch :=
  {| app_id := app_id t; app_secret := app_secret t;
     app_auth_token := v; app_auth_scope := app_auth_scope t;
     has_app_auth := has_app_auth t;
     user_auth_token := user_auth_token t;
     user_auth_refresh_token := user_auth_refresh_token t;
     user_auth_scope := user_auth_scope t; has_user_auth := has_user_auth t;
     auto_refresh_auth := auto_refresh_auth t |}.

Definition set_app_auth_scope (v : list AuthScope) (t : Twitch) : Twitch :=
  {| app_id := app_id t; app_secret := app_secret t;
     app_auth_token := app_auth_token t; app_auth_scope := v;
     has_app_auth := has_app_auth t;
     user_auth_token := user_auth_token t;
     user_auth_refresh_token := user_auth_refresh_token t;
     user_auth_scope := user_auth_scope t; has_user_auth := has_user_auth t;
     auto_refresh_auth := auto_refresh_auth t |}.

Definition set_has_app_auth (v : bool) (t : Twitch) : Twitch :=
  {| app_id := app_id t; app_secret := app_secret t;
     app_auth_token := app_auth_token t; app_auth_scope := app_auth_scope t;
     has_app_auth := v;
     user_auth_token := user_auth_token t;
     user_auth_refresh_token := user_auth_refresh_token t;
     user_auth_scope := user_auth_scope t; has_user_auth := has_user_auth t;
     auto_refresh_auth := auto_refresh_auth t |}.

Definition set_user_tokens (tok rtok : option string) (t : Twitch) : Twitch :=
  {| app_id := app_id t; app_secret := app_secret t;
     app_auth_token := app_auth_token t; app_auth_scope := app_auth_scope t;
     has_app_auth := has_app_auth t;
     user_auth_token := tok;
     user_auth_refresh_token := rtok;
     user_auth_scope := user_auth_scope t; has_user_auth := has_user_auth t;
     auto_refresh_auth := auto_refresh_auth t |}.

Definition set_user_auth_scope (v : list AuthScope) (t : Twitch) : Twitch :=
  {| app_id := app_id t; app_secret := app_secret t;
     app_auth_token := app_auth_token t; app_auth_scope := app_auth_scope t;
     has_app_auth := has_app_auth t;
     user_auth_token := user_auth_token t;
     user_auth_refresh_token := user_auth_refresh_token t;
     user_auth_scope := v; has_user_auth := has_user_auth t;
     auto_refresh_auth := auto_refresh_auth t |}.

Definition set_has_user_auth (v : bool) (t : Twitch) : Twitch :=
  {| app_id := app_id t; app_secret := app_secret t;
     app_auth_token := app_auth_token t; app_auth_scope := app_auth_scope t;
     has_app_auth := has_app_auth t;
     user_auth_token := user_auth_token t;
     user_auth_refresh_token := user_auth_refresh_token t;
     user_auth_scope := user_auth_scope t; has_user_auth := v;
     auto_refresh_auth := auto_refresh_auth t |}.

Definition set_auto_refresh_auth (v : bool) (t : Twitch) : Twitch :=
  {| app_id := app_id t; app_secret := app_secret t;
     app_auth_token := app_auth_token t; app_auth_scope := app_auth_scope t;
     has_app_auth := has_app_auth t;
     user_auth_token := user_auth_token t;
     user_auth_refresh_token := user_auth_refresh_token t;
     user_auth_scope := user_auth_scope t; has_user_auth := has_user_auth t;
     auto_refresh_auth := v |}.

(** ** Calls that leave the process *)

(** One entry per outbound call, tagged by the place in [twitch.py] that
    makes it: a resource request of an executor, the token request of
    [__generate_app_token], the refresh-grant exchange of
    [refresh_used_token]. *)
Inductive Event :=
| Attempt (m : Method) (url : string) (headers : gmap string string)
          (data : option Body)
| AppTokenRequest (url : string)
| UserTokenRefresh (refresh_token : option string) (id secret : string).

Definition is_attempt (e : Event) : bool :=
  match e with Attempt _ _ _ _ => true | _ => false end.

Definition is_refresh (e : Event) : bool :=
  match e with Attempt _ _ _ _ => false | _ => true end.

(** Number of resource requests, and of Token Refresher calls, in a log. *)
Definition attempts (t : list Event) : nat := length (filter is_attempt t).
Definition refreshes (t : list Event) : nat := length (filter is_refresh t).

(** ** The monad *)

Record Machine := mkMachine {
  client : Twitch;
  world : World;
  trace : list Event
}.

Definition M (A : Type) : Type := Machine -> outcome A * Machine.

Definition ret {A} (a : A) : M A := fun s => (Return a, s).

Definition raise {A} (e : Exception) : M A := fun s => (Raise e, s).

Definition bind {A B} (c : M A) (k : A -> M B) : M B :=
  fun s =>
    match c s with
    | (Return a, s') => k a s'
    | (Raise e, s') => (Raise e, s')
    end.

Definition read {A} (f : Twitch -> A) : M A :=
  fun s => (Return (f (client s)), s).

Definition modify (f : Twitch -> Twitch) : M unit :=
  fun s =>
    (Return tt, {| client := f (client s); world := world s; trace := trace s |}).

Definition lift {A} (o : outcome A) : M A := fun s => (o, s).

End Client.

Notation "'let*' x := c 'in' k" := (bind c (fun x => k))
  (at level 10, x pattern, c at level 100, k at level 200).
Notation "c ;; k" := (bind c (fun _ => k))
  (at level 100, k at level 200, right associativity).

Section Methods.
Context {C : Collaborators}.

(** ** Header Builder *)

(** The loop [for s in required_scope: if s not in granted: raise
    MissingScopeException(prefix + s.name)]. *)
Fixpoint require_scopes (prefix : string) (granted required : list AuthScope)
  : outcome unit :=
  match required with
  | [] => Return tt
  | s :: rest =>
      if decide (s ∈ granted)
      then require_scopes prefix granted rest
      else Raise (MissingScopeException (prefix +:+ scope_name s))
  end.

(** [Twitch.__generate_header] *)
Definition generate_header (t : Twitch) (auth_type : AuthType)
    (required_scope : list AuthScope) : outcome (gmap string string) :=
  let header : gmap string string := {[ "Client-ID" := app_id t ]} in
  if decide (auth_type = APP) then
    if negb (has_app_auth t) then
      Raise (UnauthorizedException "Require app authentication!")
    else
      match require_scopes "Require app auth scope " (app_auth_scope t)
                           required_scope with
      | Raise e => Raise e
      | Return _ =>
          Return (<[ "Authorization" := "Bearer " +:+ py_str (app_auth_token t) ]> header)
      end
  else if decide (auth_type = USER) then
    if negb (has_user_auth t) then
      Raise (UnauthorizedException "require user authentication!")
    else
      match require_scopes "Require user auth scope " (user_auth_scope t)
                           required_scope with
      | Raise e => Raise e
      | Return _ =>
          Return (<[ "Authorization" := "Bearer " +:+ py_str (user_auth_token t) ]> header)
      end
  else if has_user_auth t || has_app_auth t then
    Return (<[ "Authorization" :=
                 "Bearer " +:+ py_str (if has_user_auth t then user_auth_token t
                                       else app_auth_token t) ]> header)
  else Return header.

(** ** Credential Store *)

(** [Twitch.get_app_token] *)
Definition get_app_token (t : Twitch) : option string := app_auth_token t.

(** [Twitch.get_user_auth_token] *)
Definition get_user_auth_token (t : Twitch) : option string := user_auth_token t.

(** [Twitch.get_used_token] *)
Definition get_used_token (t : Twitch) : option string :=
  if has_user_auth t then user_auth_token t else app_auth_token t.

(** [Twitch.set_user_authentication] *)
Definition set_user_authentication (token : string) (scope : list AuthScope)
    (refresh_token : option string) : M unit :=
  let* auto := read auto_refresh_auth in
  if bool_decide (refresh_token = None) && auto then
    raise (ValueError "refresh_token has to be provided when auto_refresh_user_auth is True")
  else
    modify (set_user_tokens (Some token) refresh_token) ;;
    modify (set_user_auth_scope scope) ;;
    modify (set_has_user_auth true).

(** ** Outbound calls *)

(** [requests.<verb>(url, headers=headers[, json=data])] of an executor. *)
Definition send (m : Method) (url : string) (headers : gmap string string)
    (data : option Body) : M Response :=
  fun s =>
    let '(r, w) := requests_request m url (Some headers) data (world s) in
    (Return r, {| client := client s; world := w;
                  trace := trace s ++ [Attempt m url headers data] |}).

(** [requests.post(url)] of [__generate_app_token]. *)
Definition post_token_request (url : string) : M Response :=
  fun s =>
    let '(r, w) := requests_request POST url None None (world s) in
    (Return r, {| client := client s; world := w;
                  trace := trace s ++ [AppTokenRequest url] |}).

(** The call to [oauth.refresh_access_token]. *)
Definition call_refresh_access_token (refresh_token : option string)
    (id secret : string) : M (string * string) :=
  fun s =>
    let '(r, w) := refresh_access_token refresh_token id secret (world s) in
    (r, {| client := client s; world := w;
           trace := trace s ++ [UserTokenRefresh refresh_token id secret] |}).

(** ** Token Refresher *)

(** [Twitch.__generate_app_token] *)
Definition generate_app_token : M unit :=
  let* c := read id in
  let params :=
    [ ("client_id", app_id c);
      ("client_secret", app_secret c);
      ("grant_type", "client_credentials");
      ("scope", build_scope (app_auth_scope c)) ] in
  let url := build_url (TWITCH_AUTH_BASE_URL +:+ "oauth2/token") params in
  let* result := post_token_request url in
  if negb (status_code result =? 200) then
    raise (TwitchAuthorizationException
             ("Authentication failed with code " +:+ pretty (status_code result)
              +:+ " (" +:+ text result +:+ ")"))
  else
    match json result with
    | None =>
        (* except ValueError *)
        raise (TwitchAuthorizationException
                 "Authentication response did not have a valid json body")
    | Some (JNotDict type_error) =>
        (* data['access_token'] on a list, str, number or None: not caught *)
        raise (TypeError type_error)
    | Some (JDict data) =>
        match data !! "access_token" with
        | None =>
            (* except KeyError *)
            raise (TwitchAuthorizationException
                     "Authentication response did not contain access_token")
        | Some tok => modify (set_app_auth_token (as_token tok))
        end
    end.

(** [Twitch.refresh_used_token] *)
Definition refresh_used_token : M unit :=
  let* c := read id in
  if has_user_auth c then
    let* p := call_refresh_access_token (user_auth_refresh_token c)
                                        (app_id c) (app_secret c) in
    modify (set_user_tokens (Some (fst p)) (Some (snd p)))
  else generate_app_token.

(** [Twitch.authenticate_app] *)
Definition authenticate_app (scope : list AuthScope) : M unit :=
  modify (set_app_auth_scope scope) ;;
  generate_app_token ;;
  modify (set_has_app_auth true).

(** ** Resilient Request Executor *)

(** The body shared, word for word, by [__api_get_request],
    [__api_post_request], [__api_put_request], [__api_patch_request] and
    [__api_delete_request]; they differ in the verb only ([get] has no
    [data]). [retries] is a Python [int]; the guard [retries > 0] is what
    makes the two recursive calls decrease. The three-way
    [if auto and retries > 0 / elif auto and retries <= 0 / (fall through)]
    is written with [auto] tested first. *)
Equations? api_request (m : Method) (url : string) (auth_type : AuthType)
    (required_scope : list AuthScope) (data : option Body) (retries : Z)
  : M Response by wf (Z.to_nat retries) lt :=
  api_request m url auth_type required_scope data retries :=
    let* headers := (fun s => lift (generate_header (client s) auth_type required_scope) s) in
    let* req := send m url headers data in
    let* auto := read auto_refresh_auth in
    if auto then
      match decide (retries > 0) with
      | left Hpos =>
          if status_code req =? 401 then
            (* unauthorized, lets try to refresh the token once *)
            refresh_used_token ;;
            api_request m url auth_type required_scope data (retries - 1)
          else if status_code req =? 503 then
            (* service unavailable, retry exactly once *)
            api_request m url auth_type required_scope data 0
          else ret req
      | right _ =>
          if status_code req =? 503 then
            raise (TwitchBackendException "The Twitch API returns a server error")
          else ret req
      end
    else ret req.
Proof. all: lia. Qed.

(** [Twitch.__api_get_request] *)
Definition api_get_request (url : string) (auth_type : AuthType)
    (required_scope : list AuthScope) (retries : Z) : M Response :=
  api_request GET url auth_type required_scope None retries.

(** [Twitch.__api_post_request] *)
Definition api_post_request (url : string) (auth_type : AuthType)
    (required_scope : list AuthScope) (data : option Body) (retries : Z)
  : M Response :=
  api_request POST url auth_type required_scope data retries.

(** [Twitch.__api_put_request] *)
Definition api_put_request (url : string) (auth_type : AuthType)
    (required_scope : list AuthScope) (data : option Body) (retries : Z)
  : M Response :=
  api_request PUT url auth_type required_scope data retries.

(** [Twitch.__api_patch_request] *)
Definition api_patch_request (url : string) (auth_type : AuthType)
    (required_scope : list AuthScope) (data : option Body) (retries : Z)
  : M Response :=
  api_request PATCH url auth_type required_scope data retries.

(** [Twitch.__api_delete_request] *)
Definition api_delete_request (url : string) (auth_type : AuthType)
    (required_scope : list AuthScope) (data : option Body) (retries : Z)
  : M Response :=
  api_request DELETE url auth_type required_scope data retries.

End Methods.

(** ** Vocabulary of the statements *)

Section Vocabulary.
Context {C : Collaborators}.

(** Whether a credential is installed for an auth mode; in the last mode
    either one counts. *)
Definition installed (t : Twitch) (m : AuthType) : bool :=
  match m with
  | APP => has_app_auth t
  | USER => has_user_auth t
  | NONE => has_user_auth t || has_app_auth t
  end.

(** The scope list and the token of the credential a mode selects. *)
Definition granted (t : Twitch) (m : AuthType) : list AuthScope :=
  match m with
  | APP => app_auth_scope t
  | USER => user_auth_scope t
  | NONE => []
  end.

Definition selected_token (t : Twitch) (m : AuthType) : option string :=
  match m with
  | APP => app_auth_token t
  | USER => user_auth_token t
  | NONE => if has_user_auth t then user_auth_token t else app_auth_token t
  end.

Definition scope_prefix (m : AuthType) : string :=
  match m with
  | APP => "Require app auth scope "
  | USER => "Require user auth scope "
  | NONE => ""
  end.

(** The header every call starts from, and the same with a bearer token. *)
Definition base_header (t : Twitch) : gmap string string :=
  {[ "Client-ID" := app_id t ]}.

Definition bearer_header (t : Twitch) (tok : option string) : gmap string string :=
  <[ "Authorization" := "Bearer " +:+ py_str tok ]> (base_header t).

(** The machine right after an executor has sent one request. *)
Definition sent (s : Machine) (m : Method) (url : string)
    (headers : gmap string string) (data : option Body) : Response * Machine :=
  let '(r, w) := requests_request m url (Some headers) data (world s) in
  (r, {| client := client s; world := w;
         trace := trace s ++ [Attempt m url headers data] |}).

(** The token request [__generate_app_token] posts for a client. *)
Definition app_token_url (t : Twitch) : string :=
  build_url (TWITCH_AUTH_BASE_URL +:+ "oauth2/token")
    [ ("client_id", app_id t);
      ("client_secret", app_secret t);
      ("grant_type", "client_credentials");
      ("scope", build_scope (app_auth_scope t)) ].

(** The Token Refresher call that [refresh_used_token] makes for a client. *)
Definition refresh_event (t : Twitch) : Event :=
  if has_user_auth t
  then UserTokenRefresh (user_auth_refresh_token t) (app_id t) (app_secret t)
  else AppTokenRequest (app_token_url t).

(** Clients that differ in their tokens only: what a refresh may change. *)
Definition same_up_to_tokens (t t' : Twitch) : Prop :=
  app_id t' = app_id t /\ app_secret t' = app_secret t /\
  app_auth_scope t' = app_auth_scope t /\ has_app_auth t' = has_app_auth t /\
  user_auth_scope t' = user_auth_scope t /\ has_user_auth t' = has_user_auth t /\
  auto_refresh_auth t' = auto_refresh_auth t.

(** The answer of the token endpoint to the request [__generate_app_token]
    makes from a machine. *)
Definition token_answer (s : Machine) : Response :=
  fst (requests_request POST (app_token_url (client s)) None None (world s)).

(** The answers [__generate_app_token] turns into
    [TwitchAuthorizationException]: a status other than 200, a body that
    does not parse, a dict without [access_token]. *)
Definition token_refused (r : Response) : Prop :=
  status_code r <> 200 \/ json r = None \/
  exists fields, json r = Some (JDict fields) /\ fields !! "access_token" = None.

(** How [__generate_app_token] fails on an answer: with
    [TwitchAuthorizationException] on a refused one, with the [TypeError] of
    the subscript on a 200 whose body decodes to something that is not a
    dict. *)
Definition app_token_failure (r : Response) (e : Exception) : Prop :=
  (token_refused r /\ exists msg, e = TwitchAuthorizationException msg) \/
  (status_code r = 200 /\
   exists msg, json r = Some (JNotDict msg) /\ e = TypeError msg).

(** The exception of the executors on a 503 that is not resent. *)
Definition backend_error : Exception :=
  TwitchBackendException "The Twitch API returns a server error".

End Vocabulary.

(** ** A scripted world

    Concrete collaborators for running the client: scopes are their names,
    and the servers answer from three scripts (resource endpoint, token
    endpoint, refresh grant), one reply per call; an exhausted script
    answers 200. *)

Record Script := mkScript {
  resource_replies : list Response;
  token_replies : list Response;
  refresh_replies : list (outcome (string * string))
}.

Definition reply (code : Z) : Response := mkResponse code "" None.

Definition token_reply (tok : string) : Response :=
  mkResponse 200 "" (Some (JDict {[ "access_token" := JString tok ]})).

Definition scripted : Collaborators := {|
  AuthScope := string;
  scope_name := fun s => s;
  build_scope := fun l => String.concat " " l;
  build_url := fun u ps =>
    u +:+ "?" +:+ String.concat "&" (map (fun p => fst p +:+ "=" +:+ snd p) ps);
  TWITCH_AUTH_BASE_URL := "https://id.twitch.tv/";
  Body := string;
  World := Script;
  requests_request := fun _ _ h _ w =>
    match h with
    | Some _ =>
        match resource_replies w with
        | [] => (reply 200, w)
        | r :: rs => (r, mkScript rs (token_replies w) (refresh_replies w))
        end
    | None =>
        match token_replies w with
        | [] => (reply 200, w)
        | r :: rs => (r, mkScript (resource_replies w) rs (refresh_replies w))
        end
    end;
  refresh_access_token := fun _ _ _ w =>
    match refresh_replies w with
    | [] => (Raise (ForeignException "refresh script exhausted"), w)
    | r :: rs => (r, mkScript (resource_replies w) (token_replies w) rs)
    end
|}.

(** A fresh client, one with an app credential, one with a user
    credential, and one with both. *)
Definition fresh : @Twitch scripted := Twitch_init "id" "secret".

Definition app_client (scope : list (@AuthScope scripted)) : @Twitch scripted :=
  set_has_app_auth true
    (set_app_auth_token (Some "app0") (set_app_auth_scope scope fresh)).

Definition user_client (scope : list (@AuthScope scripted)) : @Twitch scripted :=
  set_has_user_auth true
    (set_user_auth_scope scope
       (set_user_tokens (Some "user0") (Some "refresh0") fresh)).


(** A machine about to run a call against the given scripts. *)
Definition boot (t : @Twitch scripted) (resource token : list Response)
    (refresh : list (outcome (string * string))) : @Machine scripted :=
  {| client := t; world := mkScript resource token refresh; trace := [] |}.

(** The runs used below. Each script lists the statuses the resource
    endpoint answers with, in order. *)

(** App credential; the endpoint answers 503 twice. *)
Definition unavailable_twice : @Machine scripted :=
  boot (app_client []) [reply 503; reply 503] [] [].

(** App credential; 401, then (after the app token is renewed) 503; a 200
    is waiting for a further request. *)
Definition expired_then_unavailable : @Machine scripted :=
  boot (app_client []) [reply 401; reply 503; reply 200]
       [token_reply "app1"] [].

(** User credential; 401 before and after a successful refresh. *)
Definition rejected_twice : @Machine scripted :=
  boot (user_client []) [reply 401; reply 401] []
       [Return ("user1", "refresh1")].


(** App credential, auto-refresh switched off; the endpoint answers 401. *)
Definition refresh_disabled : @Machine scripted :=
  boot (set_auto_refresh_auth false (app_client [])) [reply 401; reply 200] [] [].

(** A client that never authenticated. *)
Definition unauthenticated : @Machine scripted := boot fresh [] [] [].

(** App credential with scope [A]; the token endpoint answers 500. *)
Definition token_endpoint_down : @Machine scripted :=
  boot (app_client ["A"]) [] [reply 500] [].

(** App credential; the resource endpoint answers 401, and the token
    endpoint answers the refresh with 200 and the JSON array [[]], whose
    subscript by a [str] raises the [TypeError] given. *)
Definition refresh_answer_not_a_dict : @Machine scripted :=
  boot (app_client []) [reply 401; reply 200]
       [mkResponse 200 "[]"
          (Some (JNotDict "list indices must be integers or slices, not str"))]
       [].

(** ** Endpoint methods

    A selection of the API calls of [twitch.py]: argument checks, URL,
    executor call, decoding of the response. *)

(** The values the endpoint methods put into their parameter and body
    dicts. *)
Inductive PyValue :=
| PNone
| PStr (s : string)
| PInt (z : Z)
| PList (l : list string).

Definition opt_str (o : option string) : PyValue :=
  match o with Some s => PStr s | None => PNone end.

Definition opt_list (o : option (list string)) : PyValue :=
  match o with Some l => PList l | None => PNone end.

(** [len(x) if x is not None else 0] *)
Definition opt_len (o : option (list string)) : Z :=
  match o with Some l => Z.of_nat (length l) | None => 0 end.

(** What the endpoint methods use from outside [twitch.py], beyond
    [Collaborators]: [TWITCH_API_BASE_URL], [build_url] with its
    [remove_none] and [split_lists] flags and [make_fields_datetime] of
    [helper.py], [datetime] with the two methods called on it, the dict
    handed to [requests] as [json=], the message of the [ValueError] of
    [response.json()], and the [AuthScope] members named below. *)
Class Helpers {C : Collaborators} := {
  TWITCH_API_BASE_URL : string;
  build_url_params : string -> list (string * PyValue) -> bool -> bool -> string;
  datetime : Type;
  isoformat : datetime -> string;
  astimezone : datetime -> datetime;
  make_fields_datetime : JsonDoc -> list string -> JsonDoc;
  json_body : list (string * PyValue) -> Body;
  json_error : Response -> string;
  USER_EDIT_BROADCAST : AuthScope;
  CHANNEL_EDIT_COMMERCIAL : AuthScope
}.

Section Endpoints.
Context {C : Collaborators} {H : Helpers}.

(** [response.json()]: the decoded body, or [ValueError]. *)
Definition response_json (r : Response) : M JsonDoc :=
  match json r with
  | Some d => ret d
  | None => raise (ValueError (json_error r))
  end.

(** [Twitch.get_top_games] *)
Definition get_top_games (after before : option string) (first : Z)
  : M JsonDoc :=
  if (first <? 1) || (first >? 100) then
    raise (ValueError "first must be between 1 and 100")
  else
    let param := [ ("after", opt_str after);
                   ("before", opt_str before);
                   ("first", PInt first) ] in
    let url := build_url_params (TWITCH_API_BASE_URL +:+ "games/top")
                                param true false in
    let* result := api_get_request url APP [] 1 in
    response_json result.

(** [Twitch.get_games] *)
Definition get_games (game_ids names : option (list string))
  : M JsonDoc :=
  if bool_decide (game_ids = None) && bool_decide (names = None) then
    raise (ValueError "at least one of either game_ids and names has to be set")
  else if opt_len game_ids + opt_len names >? 100 then
    raise (ValueError "in total, only 100 game_ids and names can be passed")
  else
    let param := [ ("id", opt_list game_ids); ("name", opt_list names) ] in
    let url := build_url_params (TWITCH_API_BASE_URL +:+ "games")
                                param true true in
    let* result := api_get_request url APP [] 1 in
    response_json result.

(** [Twitch.get_users] *)
Definition get_users (user_ids logins : option (list string))
  : M JsonDoc :=
  if opt_len user_ids + opt_len logins >? 100 then
    raise (ValueError
             "the total number of entries in user_ids and logins can not be more than 100")
  else
    let url_params := [ ("id", opt_list user_ids);
                        ("login", opt_list logins) ] in
    let url := build_url_params (TWITCH_API_BASE_URL +:+ "users")
                                url_params true true in
    let* response :=
      api_get_request url
        (if bool_decide (user_ids = None) && bool_decide (logins = None)
         then USER else APP)
        [] 1 in
    response_json response.

(** [Twitch.get_clips] *)
Definition get_clips (broadcaster_id game_id : option string)
    (clip_id : option (list string)) (after before : option string)
    (ended_at started_at : option datetime) (first : Z)
  : M JsonDoc :=
  if negb (bool_decide (clip_id = None)) && (opt_len clip_id >? 100) then
    raise (ValueError "A maximum of 100 clips can be queried in one call")
  else if negb (Z.b2z (negb (bool_decide (clip_id = None)))
                + Z.b2z (negb (bool_decide (broadcaster_id = None)))
                + Z.b2z (negb (bool_decide (game_id = None))) =? 1) then
    raise (ValueError
             "You need to specify exactly one of clip_id, broadcaster_id or game_id")
  else if (first <? 1) || (first >? 100) then
    raise (ValueError "first must be in range 1 to 100")
  else
    let param :=
      [ ("broadcaster_id", opt_str broadcaster_id);
        ("game_id", opt_str game_id);
        ("clip_id", opt_list clip_id);
        ("after", opt_str after);
        ("before", opt_str before);
        ("first", PInt first);
        ("ended_at",
         opt_str (option_map (fun d => isoformat (astimezone d)) ended_at));
        ("started_at",
         opt_str (option_map (fun d => isoformat (astimezone d)) started_at)) ] in
    let url := build_url_params (TWITCH_API_BASE_URL +:+ "clips")
                                param true true in
    let* result := api_get_request url APP [] 1 in
    let* data := response_json result in
    ret (make_fields_datetime data ["created_at"]).

(** [Twitch.start_commercial] *)
Definition start_commercial (broadcaster_id : string) (length : Z)
  : M JsonDoc :=
  if negb (bool_decide (length ∈ [30; 60; 90; 120; 150; 180])) then
    raise (ValueError
             "length needs to be one of these: [30, 60, 90, 120, 150, 180]")
  else
    let url := build_url_params (TWITCH_API_BASE_URL +:+ "channels/commercial")
                 [ ("broadcaster_id", PStr broadcaster_id);
                   ("length", PInt length) ] false false in
    let* response :=
      api_post_request url USER [CHANNEL_EDIT_COMMERCIAL] None 1 in
    response_json response.

(** [Twitch.replace_stream_tags] *)
Definition replace_stream_tags (broadcaster_id : string) (tag_ids : list string)
  : M JsonDoc :=
  if Z.of_nat (length tag_ids) >? 100 then
    raise (ValueError "tag_ids can not have more than 100 entries")
  else
    let url := build_url_params (TWITCH_API_BASE_URL +:+ "streams/tags")
                 [ ("broadcaster_id", PStr broadcaster_id) ] false false in
    api_put_request url USER [USER_EDIT_BROADCAST]
                    (Some (json_body [ ("tag_ids", PList tag_ids) ])) 1 ;;
    (* this returns nothing *)
    ret ∅.

(** Unpacking a [str] into two targets, as [k, v = item] does: the string
    is iterated character by character and must yield exactly two. *)
Definition unpack_pair (item : string) : outcome (string * string) :=
  match item with
  | String a (String b EmptyString) =>
      Return (String a EmptyString, String b EmptyString)
  | String _ (String _ (String _ _)) =>
      Raise (ValueError "too many values to unpack (expected 2)")
  | _ =>
      Raise (ValueError
               ("not enough values to unpack (expected 2, got "
                +:+ pretty (String.length item) +:+ ")"))
  end.

(** [{k: v for k, v in d if v is not None}] for a dict [d] with [str] keys:
    iterating a dict yields its keys, each key is unpacked into [k, v], and
    a character is never [None]. *)
Fixpoint dict_comprehension (keys : list string)
  : outcome (list (string * PyValue)) :=
  match keys with
  | [] => Return []
  | item :: rest =>
      match unpack_pair item with
      | Raise e => Raise e
      | Return (k, v) =>
          match dict_comprehension rest with
          | Raise e => Raise e
          | Return d => Return ((k, PStr v) :: d)
          end
      end
  end.

(** [Twitch.modify_channel_information] *)
Definition modify_channel_information (broadcaster_id : string)
    (game_id broadcaster_language title : option string) : M bool :=
  if bool_decide (game_id = None) && bool_decide (broadcaster_language = None)
     && bool_decide (title = None) then
    raise (ValueError "You need to specify at least one of the optional parameter")
  else
    let url := build_url_params (TWITCH_API_BASE_URL +:+ "channels")
                 [ ("broadcaster_id", PStr broadcaster_id) ] true false in
    let* body := lift (dict_comprehension
                         (map fst [ ("game_id", opt_str game_id);
                                    ("broadcaster_language",
                                     opt_str broadcaster_language);
                                    ("title", opt_str title) ])) in
    let* response :=
      api_patch_request url USER [USER_EDIT_BROADCAST]
                        (Some (json_body body)) 1 in
    ret (status_code response =? 204).

End Endpoints.

(** Helpers for the scripted world: a query string of the parameters that
    are not [None], timestamps as integers, bodies as query strings. *)
Definition show_value (v : PyValue) : string :=
  match v with
  | PNone => "None"
  | PStr s => s
  | PInt z => pretty z
  | PList l => String.concat "," l
  end.

Definition show_params (ps : list (string * PyValue)) : string :=
  String.concat "&" (map (fun p => fst p +:+ "=" +:+ show_value (snd p)) ps).

Definition is_none (v : PyValue) : bool :=
  match v with PNone => true | _ => false end.

Definition scripted_helpers : @Helpers scripted := {|
  TWITCH_API_BASE_URL := "https://api.twitch.tv/helix/";
  build_url_params := fun u ps remove_none _ =>
    u +:+ "?" +:+
    show_params (if remove_none
                 then List.filter (fun p => negb (is_none (snd p))) ps
                 else ps);
  datetime := Z;
  isoformat := fun d => pretty d;
  astimezone := fun d => d;
  make_fields_datetime := fun d _ => d;
  json_body := fun ps => (show_params ps : @Body scripted);
  json_error := fun _ => "Expecting value";
  USER_EDIT_BROADCAST := ("USER_EDIT_BROADCAST" : @AuthScope scripted);
  CHANNEL_EDIT_COMMERCIAL := ("CHANNEL_EDIT_COMMERCIAL" : @AuthScope scripted)
|}.

(** * Properties *)

(** ** Header Builder *)

Section HeaderBuilder.
Context {C : Collaborators}.
Implicit Types (t : Twitch) (G R : list AuthScope) (m : AuthType).

Lemma require_scopes_covered prefix G R :
  R ⊆ G -> require_scopes prefix G R = Return tt.
Proof.
  induction R as [|s R IH]; intros Hsub; simpl; [reflexivity|].
  destruct (decide (s ∈ G)) as [_|Hout].
  - apply IH. intros x Hx. apply Hsub. now right.
  - exfalso. apply Hout, Hsub. now left.
Qed.

Lemma require_scopes_first_unmet prefix G R :
  ~ R ⊆ G ->
  exists pre s post,
    R = pre ++ s :: post /\ pre ⊆ G /\ (s ∉ G) /\
    require_scopes prefix G R =
      Raise (MissingScopeException (prefix +:+ scope_name s)).
Proof.
  induction R as [|s R IH]; intros Hnot.
  - exfalso. apply Hnot. intros x Hx. inversion Hx.
  - simpl. destruct (decide (s ∈ G)) as [Hin|Hout].
    + destruct IH as (pre & u & post & -> & Hpre & Hu & Hrun).
      { intros Hsub. apply Hnot. intros x Hx.
        apply elem_of_cons in Hx as [->|Hx]; [assumption|now apply Hsub]. }
      exists (s :: pre), u, post. repeat split; try assumption.
      intros x Hx. apply elem_of_cons in Hx as [->|Hx]; [assumption|now apply Hpre].
    + exists [], s, R. repeat split; try assumption.
      intros x Hx. inversion Hx.
Qed.

Lemma generate_header_credentialed t m R :
  m <> NONE ->
  generate_header t m R =
    if negb (installed t m) then
      Raise (UnauthorizedException
               (match m with
                | APP => "Require app authentication!"
                | _ => "require user authentication!"
                end))
    else
      match require_scopes (scope_prefix m) (granted t m) R with
      | Raise e => Raise e
      | Return _ => Return (bearer_header t (selected_token t m))
      end.
Proof. destruct m; [congruence|reflexivity|reflexivity]. Qed.

Lemma generate_header_either t R :
  generate_header t NONE R =
    Return (if has_user_auth t || has_app_auth t
            then bearer_header t (get_used_token t)
            else base_header t).
Proof.
  unfold generate_header, get_used_token, bearer_header, base_header. simpl.
  now destruct (has_user_auth t || has_app_auth t).
Qed.

Lemma generate_header_client_id t m R h :
  generate_header t m R = Return h -> h !! "Client-ID" = Some (app_id t).
Proof.
  destruct m.
  - rewrite generate_header_either. intros [= <-].
    destruct (has_user_auth t || has_app_auth t); reflexivity.
  - rewrite generate_header_credentialed by discriminate.
    destruct (negb _); [discriminate|].
    destruct (require_scopes _ _ _); [|discriminate]. now intros [= <-].
  - rewrite generate_header_credentialed by discriminate.
    destruct (negb _); [discriminate|].
    destruct (require_scopes _ _ _); [|discriminate]. now intros [= <-].
Qed.

(** C5. With a credential installed for the mode, [__generate_header] in App
    or User mode succeeds exactly when every required scope is granted; on
    success the header carries [Bearer <token>] of that credential; on
    failure it raises [MissingScopeException] naming the first required
    scope, in the order of the list, that is not granted. *)
Theorem header_scope_coverage t m R :
  m <> NONE -> installed t m = true ->
  ((exists h, generate_header t m R = Return h) <-> R ⊆ granted t m) /\
  (R ⊆ granted t m ->
     generate_header t m R = Return (bearer_header t (selected_token t m)) /\
     bearer_header t (selected_token t m) !! "Authorization"
       = Some ("Bearer " +:+ py_str (selected_token t m))) /\
  (~ R ⊆ granted t m ->
     exists pre s post,
       R = pre ++ s :: post /\ pre ⊆ granted t m /\
       s ∈ R /\ (s ∉ granted t m) /\
       generate_header t m R =
         Raise (MissingScopeException (scope_prefix m +:+ scope_name s))).
Proof.
  intros Hm Hinst.
  rewrite generate_header_credentialed by assumption. rewrite Hinst. simpl.
  assert (Hok : R ⊆ granted t m ->
                match require_scopes (scope_prefix m) (granted t m) R with
                | Raise e => Raise e
                | Return _ => Return (bearer_header t (selected_token t m))
                end = Return (bearer_header t (selected_token t m))).
  { intros Hsub. now rewrite require_scopes_covered. }
  assert (Hko : ~ R ⊆ granted t m ->
     exists pre s post,
       R = pre ++ s :: post /\ pre ⊆ granted t m /\
       s ∈ R /\ (s ∉ granted t m) /\
       match require_scopes (scope_prefix m) (granted t m) R with
       | Raise e => Raise e
       | Return _ => Return (bearer_header t (selected_token t m))
       end = Raise (MissingScopeException (scope_prefix m +:+ scope_name s))).
  { intros Hnot.
    destruct (require_scopes_first_unmet (scope_prefix m) _ _ Hnot)
      as (pre & s & post & HR & Hpre & Hs & Hrun).
    exists pre, s, post. rewrite Hrun. repeat split; try assumption.
    rewrite HR. apply elem_of_app. right. now left. }
  split; [split|split].
  - intros [h Hh].
    destruct (decide (R ⊆ granted t m)) as [Hsub|Hnot]; [assumption|].
    destruct (Hko Hnot) as (? & ? & ? & _ & _ & _ & _ & Hrun). congruence.
  - intros Hsub. eexists. now apply Hok.
  - intros Hsub. split; [now apply Hok|]. unfold bearer_header.
    apply lookup_insert_eq.
  - exact Hko.
Qed.

(** C9. In the remaining mode [__generate_header] never raises and ignores
    the required scopes: it sends [Bearer <token>] with the token
    [get_used_token] returns (the user token if a user credential is
    installed, else the app token) when some credential is installed, and no
    [Authorization] entry otherwise; and in every mode a built header has
    [Client-ID] set to the app id. *)
Theorem header_either_mode t R :
  generate_header t NONE R =
    Return (if has_user_auth t then bearer_header t (user_auth_token t)
            else if has_app_auth t then bearer_header t (app_auth_token t)
            else base_header t) /\
  generate_header t NONE R = generate_header t NONE [] /\
  (if has_user_auth t || has_app_auth t
   then generate_header t NONE R = Return (bearer_header t (get_used_token t)) /\
        bearer_header t (get_used_token t) !! "Authorization"
          = Some ("Bearer " +:+ py_str (get_used_token t))
   else generate_header t NONE R = Return (base_header t) /\
        base_header t !! "Authorization" = None) /\
  (forall m R' h,
     generate_header t m R' = Return h -> h !! "Client-ID" = Some (app_id t)).
Proof.
  rewrite !generate_header_either. unfold get_used_token.
  split; [|split; [reflexivity|split]].
  - now destruct (has_user_auth t), (has_app_auth t).
  - destruct (has_user_auth t), (has_app_auth t); simpl;
      (split; [reflexivity|]); unfold bearer_header;
      try apply lookup_insert_eq; reflexivity.
  - intros m R' h. apply generate_header_client_id.
Qed.

End HeaderBuilder.

(** ** Token Refresher *)

Section TokenRefresher.
Context {C : Collaborators}.
Implicit Types (s : Machine) (t : Twitch).

Lemma same_up_to_tokens_refl t : same_up_to_tokens t t.
Proof. repeat split. Qed.

Lemma generate_header_same_up_to_tokens t t' m R :
  same_up_to_tokens t t' ->
  (exists h, generate_header t m R = Return h) ->
  exists h', generate_header t' m R = Return h'.
Proof.
  intros (Hid & _ & Has & Hha & Hus & Hhu & _) [h Hh].
  destruct m.
  - rewrite generate_header_either. eauto.
  - revert Hh. rewrite !generate_header_credentialed by discriminate.
    simpl. rewrite Hhu, Hus. destruct (negb _); [discriminate|].
    destruct (require_scopes _ _ _); [eauto|discriminate].
  - revert Hh. rewrite !generate_header_credentialed by discriminate.
    simpl. rewrite Hha, Has. destruct (negb _); [discriminate|].
    destruct (require_scopes _ _ _); [eauto|discriminate].
Qed.

(** What one run of [__generate_app_token] does: one token request, and
    either a new app token or an exception with the client untouched. *)
Lemma generate_app_token_run s :
  exists o t',
    generate_app_token s =
      (o, {| client := t';
             world := snd (requests_request POST (app_token_url (client s))
                                            None None (world s));
             trace := trace s ++ [AppTokenRequest (app_token_url (client s))] |}) /\
    match o with
    | Return _ =>
        status_code (token_answer s) = 200 /\
        exists fields v,
          json (token_answer s) = Some (JDict fields) /\
          fields !! "access_token" = Some v /\
          t' = set_app_auth_token (as_token v) (client s)
    | Raise e =>
        t' = client s /\ app_token_failure (token_answer s) e
    end.
Proof.
  unfold generate_app_token, bind, read, post_token_request, token_answer,
    app_token_failure, token_refused, app_token_url.
  cbn [id].
  destruct (requests_request POST _ None None (world s)) as [result w] eqn:Hreq.
  cbn [fst snd client world trace].
  destruct (status_code result =? 200) eqn:Hcode; cbn [negb].
  - apply Z.eqb_eq in Hcode.
    destruct (json result) as [[fields|type_error]|] eqn:Hjson.
    + destruct (fields !! "access_token") as [v|] eqn:Hv.
      * eexists (Return tt), _. split; [reflexivity|]. split; [assumption|].
        exists fields, v. auto.
      * eexists (Raise _), _. split; [reflexivity|].
        split; [reflexivity|]. left. split; [|eauto]. right. right. eauto.
    + eexists (Raise _), _. split; [reflexivity|].
      split; [reflexivity|]. right. split; [assumption|]. eauto.
    + eexists (Raise _), _. split; [reflexivity|].
      split; [reflexivity|]. left. split; [|eauto]. right. now left.
  - apply Z.eqb_neq in Hcode.
    eexists (Raise _), _. split; [reflexivity|].
    split; [reflexivity|]. left. split; [|eauto]. now left.
Qed.

(** What one run of [refresh_used_token] does: exactly one call to the
    Token Refresher, chosen by [has_user_auth] alone; on success only the
    tokens of that credential change, to what the refresher delivered; on
    failure nothing does. *)
Lemma refresh_used_token_run s :
  exists o t' w',
    refresh_used_token s =
      (o, {| client := t'; world := w';
             trace := trace s ++ [refresh_event (client s)] |}) /\
    same_up_to_tokens (client s) t' /\
    (if has_user_auth (client s)
     then app_auth_token t' = app_auth_token (client s)
     else user_auth_token t' = user_auth_token (client s) /\
          user_auth_refresh_token t' = user_auth_refresh_token (client s)) /\
    match o with
    | Return _ =>
        if has_user_auth (client s)
        then exists tok rtok,
               refresh_access_token (user_auth_refresh_token (client s))
                 (app_id (client s)) (app_secret (client s)) (world s)
                 = (Return (tok, rtok), w') /\
               t' = set_user_tokens (Some tok) (Some rtok) (client s)
        else status_code (token_answer s) = 200 /\
             exists fields v,
               json (token_answer s) = Some (JDict fields) /\
               fields !! "access_token" = Some v /\
               t' = set_app_auth_token (as_token v) (client s)
    | Raise e =>
        t' = client s /\
        if has_user_auth (client s)
        then refresh_access_token (user_auth_refresh_token (client s))
               (app_id (client s)) (app_secret (client s)) (world s)
               = (Raise e, w')
        else app_token_failure (token_answer s) e
    end.
Proof.
  unfold refresh_used_token, refresh_event, bind, read. cbn [id].
  destruct (has_user_auth (client s)) eqn:Huser.
  - unfold call_refresh_access_token, modify.
    destruct (refresh_access_token _ _ _ (world s)) as [[[tok rtok]|e] w] eqn:Hr;
      cbn [fst snd client world trace].
    + eexists (Return tt), _, _. split; [reflexivity|].
      split; [repeat split|]. split; [reflexivity|]. eauto.
    + eexists (Raise e), _, _. split; [reflexivity|].
      split; [apply same_up_to_tokens_refl|]. auto.
  - destruct (generate_app_token_run s) as (o & t' & Hrun & Ho).
    exists o, t', (snd (requests_request POST (app_token_url (client s))
                                          None None (world s))).
    split; [exact Hrun|]. destruct o as [[]|e].
    + destruct Ho as (Hcode & fields & v & Hjson & Hv & ->).
      split; [repeat split|]. split; [split; reflexivity|]. eauto 6.
    + destruct Ho as (-> & Hfail).
      split; [apply same_up_to_tokens_refl|]. auto.
Qed.

End TokenRefresher.

(** ** Resilient Request Executor *)

Section Executor.
Context {C : Collaborators}.
Implicit Types (s : Machine) (t : Twitch) (m : AuthType) (R : list AuthScope)
  (verb : Method) (url : string) (data : option Body) (r : Z).

Lemma attempts_cons (e : Event) (log : list Event) :
  attempts (e :: log) = if is_attempt e then S (attempts log) else attempts log.
Proof. unfold attempts. rewrite filter_cons. now destruct (is_attempt e). Qed.

Lemma refreshes_cons (e : Event) (log : list Event) :
  refreshes (e :: log) = if is_refresh e then S (refreshes log) else refreshes log.
Proof. unfold refreshes. rewrite filter_cons. now destruct (is_refresh e). Qed.

Lemma refresh_event_kind t :
  is_attempt (refresh_event t) = false /\ is_refresh (refresh_event t) = true.
Proof. unfold refresh_event. now destruct (has_user_auth t). Qed.

(** A failing header builder ends the call before anything is sent. *)
Lemma api_request_header_failure verb url m R data r s e :
  generate_header (client s) m R = Raise e ->
  api_request verb url m R data r s = (Raise e, s).
Proof.
  intros Hh. rewrite api_request_equation_1. unfold bind at 1, lift.
  now rewrite Hh.
Qed.

(** One turn of the state machine, once the request has been sent. *)
Lemma api_request_sent verb url m R data r s h resp s1 :
  generate_header (client s) m R = Return h ->
  sent s verb url h data = (resp, s1) ->
  client s1 = client s /\
  trace s1 = trace s ++ [Attempt verb url h data] /\
  api_request verb url m R data r s =
    if auto_refresh_auth (client s) then
      if decide (r > 0) then
        if status_code resp =? 401 then
          (refresh_used_token ;; api_request verb url m R data (r - 1)) s1
        else if status_code resp =? 503 then
          api_request verb url m R data 0 s1
        else (Return resp, s1)
      else
        if status_code resp =? 503 then (Raise backend_error, s1)
        else (Return resp, s1)
    else (Return resp, s1).
Proof.
  intros Hh Hsent. unfold sent in Hsent.
  destruct (requests_request verb url (Some h) data (world s)) as [resp' w] eqn:Hreq.
  injection Hsent as -> <-. cbn [client trace].
  split; [reflexivity|]. split; [reflexivity|].
  rewrite api_request_equation_1. unfold bind at 1, lift. rewrite Hh.
  unfold bind at 1, send. rewrite Hreq.
  unfold bind at 1, read. cbn [client].
  destruct (auto_refresh_auth (client s)); [|reflexivity].
  destruct (decide (r > 0)); [|destruct (status_code resp =? 503); reflexivity].
  destruct (status_code resp =? 401); [reflexivity|].
  destruct (status_code resp =? 503); reflexivity.
Qed.

(** With the budget used up, the request that was just sent is the last. *)
Lemma api_request_last verb url m R data r s h resp s1 :
  ~ r > 0 ->
  generate_header (client s) m R = Return h ->
  sent s verb url h data = (resp, s1) ->
  api_request verb url m R data r s =
    (if auto_refresh_auth (client s) && (status_code resp =? 503)
     then Raise backend_error else Return resp, s1).
Proof.
  intros Hr Hh Hsent.
  destruct (api_request_sent verb url m R data r s h resp s1 Hh Hsent)
    as (_ & _ & ->).
  destruct (auto_refresh_auth (client s)); [|reflexivity].
  destruct (decide (r > 0)); [contradiction|].
  now destruct (status_code resp =? 503).
Qed.

(** The log only grows, by the calls of this run. *)
Lemma api_request_trace verb url m R data r s :
  exists log,
    trace (snd (api_request verb url m R data r s)) = trace s ++ log /\
    (attempts log <= Z.to_nat r + 1)%nat /\
    (refreshes log <= Z.to_nat r)%nat /\
    (refreshes log <= attempts log)%nat.
Proof.
  remember (Z.to_nat r) as n eqn:Hn. revert r s Hn.
  induction n as [n IH] using lt_wf_ind. intros r s Hn.
  destruct (generate_header (client s) m R) as [h|e] eqn:Hh.
  2:{ rewrite (api_request_header_failure _ _ _ _ _ _ _ _ Hh).
      exists []. rewrite app_nil_r. cbn. repeat split; lia. }
  destruct (sent s verb url h data) as [resp s1] eqn:Hsent.
  destruct (api_request_sent verb url m R data r s h resp s1 Hh Hsent)
    as (Hc1 & Ht1 & ->).
  assert (Hone : exists log,
             trace s1 = trace s ++ log /\ (attempts log <= n + 1)%nat /\
             (refreshes log <= n)%nat /\ (refreshes log <= attempts log)%nat).
  { exists [Attempt verb url h data].
    rewrite attempts_cons, refreshes_cons. cbn. repeat split; [assumption|lia..]. }
  destruct (auto_refresh_auth (client s)); [|exact Hone].
  destruct (decide (r > 0)) as [Hpos|Hnpos];
    [|destruct (status_code resp =? 503); exact Hone].
  destruct (status_code resp =? 401).
  - unfold bind.
    destruct (refresh_used_token_run s1) as (o & t' & w' & -> & _).
    destruct (refresh_event_kind (client s1)) as [Hev1 Hev2].
    destruct o as [[]|e].
    + destruct (IH (Z.to_nat (r - 1)) ltac:(lia) (r - 1)
                  {| client := t'; world := w';
                     trace := trace s1 ++ [refresh_event (client s1)] |} eq_refl)
        as (log & -> & Ha & Hr & Hra).
      cbn [trace]. rewrite Ht1.
      exists (Attempt verb url h data :: refresh_event (client s1) :: log).
      split; [now rewrite <- !app_assoc|].
      rewrite !attempts_cons, !refreshes_cons, Hev1, Hev2. cbn.
      repeat split; lia.
    + cbn [snd trace]. rewrite Ht1.
      exists [Attempt verb url h data; refresh_event (client s1)].
      split; [now rewrite <- !app_assoc|].
      rewrite !attempts_cons, !refreshes_cons, Hev1, Hev2. cbn.
      repeat split; lia.
  - destruct (status_code resp =? 503); [|exact Hone].
    destruct (IH (Z.to_nat 0) ltac:(lia) 0 s1 eq_refl)
      as (log & -> & Ha & Hr & Hra).
    rewrite Ht1. exists (Attempt verb url h data :: log).
    split; [now rewrite <- !app_assoc|].
    rewrite !attempts_cons, !refreshes_cons. cbn.
    repeat split; lia.
Qed.

(** The first entry a run adds to the log, when the header builder
    succeeds, is the request with the header it built. *)
Lemma api_request_first_attempt verb url m R data r s h :
  generate_header (client s) m R = Return h ->
  exists log,
    trace (snd (api_request verb url m R data r s))
      = trace s ++ Attempt verb url h data :: log.
Proof.
  intros Hh. destruct (sent s verb url h data) as [resp s1] eqn:Hsent.
  destruct (api_request_sent verb url m R data r s h resp s1 Hh Hsent)
    as (_ & Ht1 & ->).
  assert (Hone : exists log,
             trace s1 = trace s ++ Attempt verb url h data :: log)
    by (now exists []).
  assert (Hmore : forall s2 log2 r2,
             trace s2 = trace s1 ++ log2 ->
             exists log,
               trace (snd (api_request verb url m R data r2 s2))
                 = trace s ++ Attempt verb url h data :: log).
  { intros s2 log2 r2 H2.
    destruct (api_request_trace verb url m R data r2 s2) as (log & -> & _).
    rewrite H2, Ht1. exists (log2 ++ log). now rewrite <- !app_assoc. }
  destruct (auto_refresh_auth (client s)); [|exact Hone].
  destruct (decide (r > 0));
    [|destruct (status_code resp =? 503); exact Hone].
  destruct (status_code resp =? 401).
  - unfold bind.
    destruct (refresh_used_token_run s1) as (o & t' & w' & -> & _).
    destruct o as [[]|e].
    + now apply (Hmore _ [refresh_event (client s1)]).
    + cbn [snd trace]. rewrite Ht1. exists [refresh_event (client s1)].
      now rewrite <- app_assoc.
  - destruct (status_code resp =? 503); [|exact Hone].
    apply (Hmore _ []). now rewrite app_nil_r.
Qed.

(** A 503 with budget left: the request is sent once more, with the same
    header and budget 0, and whatever comes back ends the call. *)
Lemma api_request_503_resend verb url m R data r s h resp s1 resp2 s2 :
  auto_refresh_auth (client s) = true -> r > 0 ->
  generate_header (client s) m R = Return h ->
  sent s verb url h data = (resp, s1) -> status_code resp = 503 ->
  sent s1 verb url h data = (resp2, s2) ->
  api_request verb url m R data r s =
    (if status_code resp2 =? 503 then Raise backend_error else Return resp2, s2)
  /\ client s2 = client s
  /\ trace s2 = trace s ++ [Attempt verb url h data; Attempt verb url h data].
Proof.
  intros Hauto Hr Hh Hsent Hcode Hsent2.
  destruct (api_request_sent verb url m R data r s h resp s1 Hh Hsent)
    as (Hc1 & Ht1 & ->).
  rewrite Hauto, Hcode. destruct (decide (r > 0)); [|contradiction]. cbn.
  rewrite <- Hc1 in Hh, Hauto.
  destruct (api_request_sent verb url m R data 0 s1 h resp2 s2 Hh Hsent2)
    as (Hc2 & Ht2 & _).
  rewrite (api_request_last verb url m R data 0 s1 h resp2 s2
             ltac:(lia) Hh Hsent2), Hauto. cbn.
  split; [reflexivity|]. split; [congruence|].
  rewrite Ht2, Ht1. now rewrite <- app_assoc.
Qed.

(** The five executors are the shared body at their verb. *)
Lemma executors_unfold url m R data r :
  api_get_request url m R r = api_request GET url m R None r /\
  api_post_request url m R data r = api_request POST url m R data r /\
  api_put_request url m R data r = api_request PUT url m R data r /\
  api_patch_request url m R data r = api_request PATCH url m R data r /\
  api_delete_request url m R data r = api_request DELETE url m R data r.
Proof. repeat split. Qed.

(** C4 (amended). In App and User mode a call without the credential of its
    mode raises [UnauthorizedException] from the header builder and the
    executor stops there: machine, world and log are untouched, whatever the
    budget. In the remaining mode a client without any credential gets a
    header without [Authorization], and the request is sent. *)
Theorem missing_credential_fails_fast verb url m R data r s :
  installed (client s) m = false ->
  if decide (m = NONE) then
    generate_header (client s) m R = Return (base_header (client s)) /\
    base_header (client s) !! "Authorization" = None /\
    exists log,
      trace (snd (api_request verb url m R data r s))
        = trace s ++ Attempt verb url (base_header (client s)) data :: log
  else
    exists msg,
      generate_header (client s) m R = Raise (UnauthorizedException msg) /\
      api_request verb url m R data r s = (Raise (UnauthorizedException msg), s).
Proof.
  intros Hinst. case_decide as Hm.
  - subst m. cbn in Hinst.
    assert (Hh : generate_header (client s) NONE R
                 = Return (base_header (client s)))
      by (now rewrite generate_header_either, Hinst).
    split; [exact Hh|]. split; [reflexivity|].
    now apply api_request_first_attempt.
  - eexists. rewrite generate_header_credentialed by assumption.
    rewrite Hinst. cbn. split; [reflexivity|].
    apply api_request_header_failure.
    rewrite generate_header_credentialed by assumption. now rewrite Hinst.
Qed.

(** C7. With [auto_refresh_auth] off, an executor builds the header (whose
    failure it raises before sending anything), sends exactly one request
    and returns the response as it is, whatever its status and the budget:
    no refresh, no resend, no [TwitchBackendException]. *)
Theorem no_auto_refresh_single_attempt verb url m R data r s :
  auto_refresh_auth (client s) = false ->
  match generate_header (client s) m R with
  | Raise e => api_request verb url m R data r s = (Raise e, s)
  | Return h =>
      api_request verb url m R data r s
        = (Return (fst (sent s verb url h data)), snd (sent s verb url h data)) /\
      client (snd (sent s verb url h data)) = client s /\
      trace (snd (sent s verb url h data)) = trace s ++ [Attempt verb url h data]
  end.
Proof.
  intros Hauto. destruct (generate_header (client s) m R) as [h|e] eqn:Hh.
  - destruct (sent s verb url h data) as [resp s1] eqn:Hsent.
    destruct (api_request_sent verb url m R data r s h resp s1 Hh Hsent)
      as (Hc1 & Ht1 & ->).
    now rewrite Hauto.
  - now apply api_request_header_failure.
Qed.

(** C2 (amended). With auto-refresh on, a 503 is resent only while the
    budget is positive: then the request goes out exactly once more with
    the same header and no refresh, and its response ends the call (a second
    503 raises [TwitchBackendException], anything else is returned). A 503
    received with the budget at 0 or below is not resent:
    [TwitchBackendException] is raised at once. *)
Theorem service_unavailable_resend verb url m R data r s h resp s1 :
  auto_refresh_auth (client s) = true ->
  generate_header (client s) m R = Return h ->
  sent s verb url h data = (resp, s1) -> status_code resp = 503 ->
  if decide (r > 0) then
    let resent := sent s1 verb url h data in
    api_request verb url m R data r s =
      (if status_code (fst resent) =? 503 then Raise backend_error
       else Return (fst resent), snd resent)
    /\ client (snd resent) = client s
    /\ trace (snd resent)
         = trace s ++ [Attempt verb url h data; Attempt verb url h data]
  else
    api_request verb url m R data r s = (Raise backend_error, s1) /\
    trace s1 = trace s ++ [Attempt verb url h data].
Proof.
  intros Hauto Hh Hsent Hcode. case_decide as Hr.
  - cbn zeta. destruct (sent s1 verb url h data) as [resp2 s2] eqn:Hsent2.
    now apply (api_request_503_resend _ _ _ _ _ _ _ _ resp s1).
  - rewrite (api_request_last _ _ _ _ _ _ _ _ _ _ Hr Hh Hsent), Hauto, Hcode.
    split; [reflexivity|].
    now destruct (api_request_sent verb url m R data r s h resp s1 Hh Hsent)
      as (_ & ? & _).
Qed.

(** C6. With auto-refresh on and budget left, a 503 followed by a 503 on
    the resend raises [TwitchBackendException]; the run consists of those
    two requests, the Token Refresher is never called and the credentials
    stay as they were. *)
Theorem double_503_backend_error verb url m R data r s h resp s1 resp2 s2 :
  auto_refresh_auth (client s) = true -> r > 0 ->
  generate_header (client s) m R = Return h ->
  sent s verb url h data = (resp, s1) -> status_code resp = 503 ->
  sent s1 verb url h data = (resp2, s2) -> status_code resp2 = 503 ->
  api_request verb url m R data r s = (Raise backend_error, s2) /\
  trace s2 = trace s ++ [Attempt verb url h data; Attempt verb url h data] /\
  refreshes [Attempt verb url h data; Attempt verb url h data] = 0%nat /\
  client s2 = client s.
Proof.
  intros Hauto Hr Hh Hsent Hcode Hsent2 Hcode2.
  destruct (api_request_503_resend verb url m R data r s h resp s1 resp2 s2)
    as (Hrun & Hc & Ht); try assumption.
  rewrite Hcode2 in Hrun. cbn in Hrun. repeat split; assumption.
Qed.

(** C8. Every call of an executor returns, whatever the servers answer: the
    measure [Z.to_nat retries] drops at both recursive calls, which happen
    under [retries > 0] only. A run adds at most [max 0 retries + 1]
    requests to the log, at most two with the default budget 1, and never
    more refreshes than the budget. *)
Theorem executor_bounded_attempts verb url m R data r s :
  exists o s' log,
    api_request verb url m R data r s = (o, s') /\
    trace s' = trace s ++ log /\
    Z.of_nat (attempts log) <= Z.max 0 r + 1 /\
    Z.of_nat (refreshes log) <= Z.max 0 r /\
    (r = 1 -> (attempts log <= 2)%nat) /\
    (r > 0 -> (Z.to_nat (r - 1) < Z.to_nat r)%nat /\
              (Z.to_nat 0 < Z.to_nat r)%nat).
Proof.
  destruct (api_request_trace verb url m R data r s) as (log & Ht & Ha & Hr & _).
  destruct (api_request verb url m R data r s) as [o s'].
  exists o, s', log. cbn [snd] in Ht. repeat split; try assumption; lia.
Qed.

(** A 401 with budget left: the executor runs [refresh_used_token] once,
    which logs one Token Refresher call, and goes on from there. *)
Lemma api_request_401_refresh verb url m R data r s h resp s1 :
  auto_refresh_auth (client s) = true -> r > 0 ->
  generate_header (client s) m R = Return h ->
  sent s verb url h data = (resp, s1) -> status_code resp = 401 ->
  api_request verb url m R data r s
    = (refresh_used_token ;; api_request verb url m R data (r - 1)) s1 /\
  exists o t' w',
    refresh_used_token s1 =
      (o, {| client := t'; world := w';
             trace := trace s ++ [Attempt verb url h data;
                                  refresh_event (client s)] |}) /\
    same_up_to_tokens (client s) t' /\
    (if has_user_auth (client s)
     then app_auth_token t' = app_auth_token (client s)
     else user_auth_token t' = user_auth_token (client s) /\
          user_auth_refresh_token t' = user_auth_refresh_token (client s)) /\
    match o with
    | Return _ =>
        if has_user_auth (client s)
        then exists tok rtok,
               refresh_access_token (user_auth_refresh_token (client s))
                 (app_id (client s)) (app_secret (client s)) (world s1)
                 = (Return (tok, rtok), w') /\
               t' = set_user_tokens (Some tok) (Some rtok) (client s)
        else status_code (token_answer s1) = 200 /\
             exists fields v,
               json (token_answer s1) = Some (JDict fields) /\
               fields !! "access_token" = Some v /\
               t' = set_app_auth_token (as_token v) (client s)
    | Raise e =>
        t' = client s /\
        if has_user_auth (client s)
        then refresh_access_token (user_auth_refresh_token (client s))
               (app_id (client s)) (app_secret (client s)) (world s1)
               = (Raise e, w')
        else app_token_failure (token_answer s1) e
    end.
Proof.
  intros Hauto Hr Hh Hsent Hcode.
  destruct (api_request_sent verb url m R data r s h resp s1 Hh Hsent)
    as (Hc1 & Ht1 & ->).
  rewrite Hauto, Hcode. destruct (decide (r > 0)); [|contradiction]. cbn.
  split; [reflexivity|].
  destruct (refresh_used_token_run s1) as (o & t' & w' & Hrun & Hsame & Hkeep & Ho).
  rewrite Hc1, Ht1, <- app_assoc in Hrun. rewrite Hc1 in Hsame, Hkeep, Ho.
  exists o, t', w'. split; [exact Hrun|]. split; [exact Hsame|].
  split; [exact Hkeep|]. exact Ho.
Qed.

(** X17. With auto-refresh on and budget at least 1, a 401 makes the
    executor call the Token Refresher exactly once. If the refresh succeeds,
    the request is built again and resent with the budget decremented by 1;
    with budget 1, a 401 on that resend is returned as the response, not
    raised. If the refresh fails, the executor raises the exception of the
    refresh as it is, the client is unchanged and nothing is resent: on a
    client with a user credential that is what
    [oauth.refresh_access_token] raised; otherwise it is
    [TwitchAuthorizationException] when the token endpoint refused, and the
    [TypeError] of the subscript when it answered 200 with a body that is
    not a dict. *)
Theorem unauthorized_refresh_once verb url m R data r s h resp s1 :
  auto_refresh_auth (client s) = true -> r >= 1 ->
  generate_header (client s) m R = Return h ->
  sent s verb url h data = (resp, s1) -> status_code resp = 401 ->
  exists o s2,
    refresh_used_token s1 = (o, s2) /\
    trace s2 = trace s ++ [Attempt verb url h data; refresh_event (client s)] /\
    match o with
    | Return _ =>
        api_request verb url m R data r s
          = api_request verb url m R data (r - 1) s2 /\
        exists h2,
          generate_header (client s2) m R = Return h2 /\
          (r = 1 ->
           forall resp2 s3,
             sent s2 verb url h2 data = (resp2, s3) ->
             status_code resp2 = 401 ->
             api_request verb url m R data r s = (Return resp2, s3) /\
             trace s3 = trace s ++ [Attempt verb url h data;
                                    refresh_event (client s);
                                    Attempt verb url h2 data])
    | Raise e =>
        api_request verb url m R data r s = (Raise e, s2) /\
        client s2 = client s /\
        if has_user_auth (client s)
        then fst (refresh_access_token (user_auth_refresh_token (client s))
                    (app_id (client s)) (app_secret (client s)) (world s1))
             = Raise e
        else app_token_failure (token_answer s1) e
    end.
Proof.
  intros Hauto Hr Hh Hsent Hcode.
  destruct (api_request_401_refresh verb url m R data r s h resp s1)
    as (Hrun & o & t' & w' & Href & Hsame & _ & Ho); try assumption; [lia|].
  eexists o, _. split; [exact Href|]. split; [reflexivity|].
  rewrite Hrun. unfold bind. rewrite Href. destruct o as [[]|e].
  - split; [reflexivity|].
    destruct (generate_header_same_up_to_tokens _ t' m R Hsame) as [h2 Hh2];
      [eauto|].
    exists h2. split; [exact Hh2|]. intros -> resp2 s3 Hsent2 Hcode2.
    set (s2 := {| client := t' |}) in *.
    destruct (api_request_sent verb url m R data (1 - 1) s2 h2 resp2 s3 Hh2 Hsent2)
      as (_ & Ht3 & _).
    rewrite (api_request_last verb url m R data (1 - 1) s2 h2 resp2 s3
               ltac:(lia) Hh2 Hsent2), Hcode2.
    rewrite andb_false_r. split; [reflexivity|].
    rewrite Ht3. subst s2. cbn [trace]. now rewrite <- app_assoc.
  - destruct Ho as [-> Ho]. split; [reflexivity|]. split; [reflexivity|].
    destruct (has_user_auth (client s)); [now rewrite Ho|exact Ho].
Qed.


(** C10. [authenticate_app] records the requested scopes first and asks for
    the token with them; when that request fails (status other than 200,
    body that does not parse, or no [access_token] field) it raises
    [TwitchAuthorizationException] and leaves a client whose app scopes are
    the requested ones while the app token and [has_app_auth] are what they
    were. From then on App-mode scope checks and app-token requests use the
    new list. *)
Theorem authenticate_app_failure_keeps_scope scope s :
  let t1 := set_app_auth_scope scope (client s) in
  let result :=
    fst (requests_request POST (app_token_url t1) None None (world s)) in
  (status_code result <> 200 \/ json result = None \/
   exists fields,
     json result = Some (JDict fields) /\ fields !! "access_token" = None) ->
  (exists msg,
     authenticate_app scope s =
       (Raise (TwitchAuthorizationException msg),
        {| client := t1;
           world := snd (requests_request POST (app_token_url t1) None None
                                          (world s));
           trace := trace s ++ [AppTokenRequest (app_token_url t1)] |})) /\
  app_auth_scope t1 = scope /\
  app_auth_token t1 = app_auth_token (client s) /\
  has_app_auth t1 = has_app_auth (client s) /\
  app_token_url t1 =
    build_url (TWITCH_AUTH_BASE_URL +:+ "oauth2/token")
      [ ("client_id", app_id (client s));
        ("client_secret", app_secret (client s));
        ("grant_type", "client_credentials");
        ("scope", build_scope scope) ] /\
  forall R,
    generate_header t1 APP R =
      if negb (has_app_auth (client s)) then
        Raise (UnauthorizedException "Require app authentication!")
      else
        match require_scopes "Require app auth scope " scope R with
        | Raise e => Raise e
        | Return _ => Return (bearer_header t1 (app_auth_token (client s)))
        end.
Proof.
  intros t1 result Hfail.
  split; [|repeat split].
  unfold authenticate_app, bind at 1, modify.
  set (s0 := {| client := set_app_auth_scope scope (client s) |}).
  unfold bind at 1.
  destruct (generate_app_token_run s0) as (o & t' & -> & Ho).
  assert (Hanswer : token_answer s0 = result) by reflexivity.
  rewrite Hanswer in Ho. destruct o as [[]|e].
  - exfalso. destruct Ho as (Hcode & fields & v & Hjson & Hv & _).
    destruct Hfail as [Hf|[Hf|(fields' & Hf & Hf')]]; congruence.
  - destruct Ho as (-> & [(_ & msg & ->)|(Hcode & msg & Hjson & _)]).
    + exists msg. reflexivity.
    + exfalso. destruct Hfail as [Hf|[Hf|(fields' & Hf & Hf')]]; congruence.
Qed.

End Executor.

(** ** Runs against the scripted world *)

Section Runs.
Local Existing Instance scripted.

Local Ltac run := vm_compute; reflexivity.

(** On [app_client [A]], requiring [A; B] is not covered and requiring [A]
    is. *)
Lemma header_scope_coverage_witness :
  (APP <> NONE /\ installed (app_client ["A"]) APP = true) /\
  ~ (exists h, generate_header (app_client ["A"]) APP ["A"; "B"] = Return h) /\
  generate_header (app_client ["A"]) APP ["A"]
    = Return (bearer_header (app_client ["A"]) (Some "app0")).
Proof.
  split; [split; [discriminate|reflexivity]|]. split.
  - intros Hex.
    apply (proj1 (header_scope_coverage (app_client ["A"]) APP ["A"; "B"]
                    ltac:(discriminate) eq_refl)) in Hex.
    assert (Hb : "B" ∈ ["A"]) by (apply Hex; set_solver).
    apply list_elem_of_singleton in Hb. discriminate.
  - apply (header_scope_coverage (app_client ["A"]) APP ["A"]
             ltac:(discriminate) eq_refl).
    set_solver.
Defined.

(** C4, as stated, fails in the remaining mode: a client with no credential
    at all gets a header, and the request goes out. *)
Lemma missing_credential_counterexample :
  installed (client unauthenticated) NONE = false /\
  generate_header (client unauthenticated) NONE ["A"]
    = Return (base_header (client unauthenticated)) /\
  fst (api_get_request "u" NONE ["A"] 1 unauthenticated) = Return (reply 200) /\
  trace (snd (api_get_request "u" NONE ["A"] 1 unauthenticated))
    = [Attempt GET "u" (base_header (client unauthenticated)) None].
Proof. repeat split; run. Qed.

(** A User-mode call on a client that never authenticated. *)
Lemma missing_credential_fails_fast_witness :
  installed (client unauthenticated) USER = false /\
  exists msg,
    generate_header (client unauthenticated) USER ["A"]
      = Raise (UnauthorizedException msg) /\
    api_request POST "u" USER ["A"] (Some "body") 1 unauthenticated
      = (Raise (UnauthorizedException msg), unauthenticated).
Proof.
  split; [reflexivity|].
  exact (missing_credential_fails_fast POST "u" USER ["A"] (Some "body") 1
           unauthenticated eq_refl).
Defined.

(** Auto-refresh off: the 401 comes back as the response. *)
Lemma no_auto_refresh_single_attempt_witness :
  auto_refresh_auth (client refresh_disabled) = false /\
  fst (api_get_request "u" APP [] 1 refresh_disabled) = Return (reply 401) /\
  attempts (trace (snd (api_get_request "u" APP [] 1 refresh_disabled))) = 1%nat.
Proof.
  split; [reflexivity|].
  pose proof (no_auto_refresh_single_attempt GET "u" APP [] None 1
                refresh_disabled eq_refl) as H.
  change (generate_header (client refresh_disabled) APP [])
    with (Return (A := gmap string string)
            (bearer_header (client refresh_disabled) (Some "app0"))) in H.
  cbv iota beta in H. destruct H as (Hrun & _ & Htrace).
  unfold api_get_request. rewrite Hrun. cbn [fst snd]. rewrite Htrace.
  split; run.
Defined.

(** C2, as stated, fails once the budget is spent: after a 401 and a
    successful refresh the resend is answered 503, and the call raises at
    once; the 200 waiting for one more request is never asked for. *)
Lemma service_unavailable_resend_counterexample :
  auto_refresh_auth (client expired_then_unavailable) = true /\
  fst (api_get_request "u" APP [] 1 expired_then_unavailable)
    = Raise backend_error /\
  trace (snd (api_get_request "u" APP [] 1 expired_then_unavailable))
    = [Attempt GET "u" (bearer_header (app_client []) (Some "app0")) None;
       AppTokenRequest (app_token_url (app_client []));
       Attempt GET "u" (bearer_header (app_client []) (Some "app1")) None] /\
  resource_replies (world (snd (api_get_request "u" APP [] 1
                                  expired_then_unavailable)))
    = [reply 200].
Proof. repeat split; run. Qed.

(** Two 503s: with budget 1 the request is sent twice, with budget 0 once. *)
Lemma service_unavailable_resend_witness :
  auto_refresh_auth (client unavailable_twice) = true /\
  (fst (api_get_request "u" APP [] 1 unavailable_twice) = Raise backend_error /\
   attempts (trace (snd (api_get_request "u" APP [] 1 unavailable_twice)))
     = 2%nat) /\
  (fst (api_get_request "u" APP [] 0 unavailable_twice) = Raise backend_error /\
   attempts (trace (snd (api_get_request "u" APP [] 0 unavailable_twice)))
     = 1%nat).
Proof.
  set (h := bearer_header (client unavailable_twice) (Some "app0")).
  set (p1 := sent unavailable_twice GET "u" h None).
  split; [reflexivity|]. unfold api_get_request. split.
  - pose proof (service_unavailable_resend GET "u" APP [] None 1
                  unavailable_twice h (fst p1) (snd p1)
                  eq_refl ltac:(run) ltac:(run) ltac:(run)) as H.
    destruct (decide (1 > 0)); [|lia]. cbn zeta in H.
    destruct H as (Hrun & _ & Htrace).
    rewrite Hrun. cbn [fst snd]. rewrite Htrace. split; run.
  - pose proof (service_unavailable_resend GET "u" APP [] None 0
                  unavailable_twice h (fst p1) (snd p1)
                  eq_refl ltac:(run) ltac:(run) ltac:(run)) as H.
    destruct (decide (0 > 0)); [lia|].
    destruct H as (Hrun & Htrace).
    rewrite Hrun. cbn [fst snd]. rewrite Htrace. split; run.
Defined.

(** Two 503s with the default budget. *)
Lemma double_503_backend_error_witness :
  (auto_refresh_auth (client unavailable_twice) = true /\ 1 > 0) /\
  fst (api_get_request "u" APP [] 1 unavailable_twice) = Raise backend_error /\
  refreshes (trace (snd (api_get_request "u" APP [] 1 unavailable_twice)))
    = 0%nat.
Proof.
  set (h := bearer_header (client unavailable_twice) (Some "app0")).
  set (p1 := sent unavailable_twice GET "u" h None).
  set (p2 := sent (snd p1) GET "u" h None).
  split; [split; [reflexivity|lia]|].
  destruct (double_503_backend_error GET "u" APP [] None 1 unavailable_twice
              h (fst p1) (snd p1) (fst p2) (snd p2))
    as (Hrun & Htrace & _ & _); [run|lia|run..|].
  unfold api_get_request. rewrite Hrun. cbn [fst snd]. rewrite Htrace.
  split; run.
Defined.

(** C3. The claim's last clause does not hold of the code on this run: the
    app token is rejected with 401, the refresh fails because the token
    endpoint answers 200 with a body that is not a dict, and the executor
    raises the [TypeError] that [__generate_app_token] does not catch, where
    the claim (and the docstring of every endpoint method) promises
    [TwitchAuthorizationException]. As the claim says, the request is not
    resent: the log ends with the token request and the second reply of the
    resource endpoint is never asked for. *)
Lemma refresh_failure_raises_type_error :
  auto_refresh_auth (client refresh_answer_not_a_dict) = true /\
  api_get_request "u" APP [] 1 refresh_answer_not_a_dict
    = (Raise (TypeError "list indices must be integers or slices, not str"),
       {| client := app_client [];
          world := mkScript [reply 200] [] [];
          trace := [Attempt GET "u"
                      (bearer_header (app_client []) (Some "app0")) None;
                    AppTokenRequest (app_token_url (app_client []))] |}).
Proof. split; run. Qed.

(** A user token rejected before and after its refresh: one refresh, one
    resend, and the second 401 is the result of the call. *)
Lemma unauthorized_refresh_once_witness :
  (auto_refresh_auth (client rejected_twice) = true /\ 1 >= 1) /\
  fst (api_get_request "u" USER [] 1 rejected_twice) = Return (reply 401) /\
  trace (snd (api_get_request "u" USER [] 1 rejected_twice))
    = [Attempt GET "u" (bearer_header (user_client []) (Some "user0")) None;
       UserTokenRefresh (Some "refresh0") "id" "secret";
       Attempt GET "u" (bearer_header (user_client []) (Some "user1")) None].
Proof.
  set (h := bearer_header (client rejected_twice) (Some "user0")).
  set (p1 := sent rejected_twice GET "u" h None).
  split; [split; [reflexivity|lia]|].
  destruct (unauthorized_refresh_once GET "u" USER [] None 1 rejected_twice
              h (fst p1) (snd p1))
    as (o & s2 & Href & _ & Ho); [run|lia|run..|].
  vm_compute in Href. injection Href as <- <-.
  destruct Ho as (_ & h2 & Hh2 & Hlast).
  vm_compute in Hh2. injection Hh2 as <-.
  match type of Hlast with
  | _ -> forall resp2 s3, sent ?s2 _ _ ?h2 _ = _ -> _ =>
      destruct (Hlast eq_refl (fst (sent s2 GET "u" h2 None))
                  (snd (sent s2 GET "u" h2 None)))
        as (Hrun & Htrace); [run..|]
  end.
  unfold api_get_request. rewrite Hrun. cbn [fst snd]. rewrite Htrace.
  split; run.
Defined.



(** Re-authenticating with scope [B] while the token endpoint is down: the
    old token stays installed, and a call requiring the scope [A] it was
    issued with is now refused. *)
Lemma authenticate_app_failure_keeps_scope_witness :
  status_code (reply 500) <> 200 /\
  exists msg,
    fst (authenticate_app ["B"] token_endpoint_down)
      = Raise (TwitchAuthorizationException msg) /\
    let t := client (snd (authenticate_app ["B"] token_endpoint_down)) in
    app_auth_scope t = ["B"] /\ app_auth_token t = Some "app0" /\
    has_app_auth t = true /\
    generate_header t APP ["A"]
      = Raise (MissingScopeException "Require app auth scope A").
Proof.
  split; [discriminate|].
  destruct (authenticate_app_failure_keeps_scope (C := scripted) ["B"]
              token_endpoint_down)
    as ((msg & Hrun) & _); [left; vm_compute; discriminate|].
  exists msg. rewrite Hrun. cbn [fst snd client]. repeat split.
Defined.

(** [set_user_authentication] on a fresh client installs the user
    credential; without a refresh token it is refused while auto-refresh is
    on. *)
Example set_user_authentication_installs :
  set_user_authentication "user0" [] (Some "refresh0") unauthenticated
    = (Return tt, boot (user_client []) [] [] []) /\
  fst (set_user_authentication "user0" [] None unauthenticated)
    = Raise (ValueError
               "refresh_token has to be provided when auto_refresh_user_auth is True").
Proof. split; run. Qed.

(** An expired user token: 401, a successful refresh, then 200. The caller
    gets the 200 after one refresh and two requests. *)
Example expired_user_token_recovers :
  let s := boot (user_client []) [reply 401; reply 200] []
                [Return ("user1", "refresh1")] in
  fst (api_get_request "u" USER [] 1 s) = Return (reply 200) /\
  attempts (trace (snd (api_get_request "u" USER [] 1 s))) = 2%nat /\
  refreshes (trace (snd (api_get_request "u" USER [] 1 s))) = 1%nat /\
  get_used_token (client (snd (api_get_request "u" USER [] 1 s)))
    = Some "user1".
Proof. repeat split; run. Qed.

(** A 503 followed by a 404: the 404 is returned as it is. *)
Example unavailable_then_not_found :
  let s := boot (app_client []) [reply 503; reply 404] [] [] in
  fst (api_post_request "u" APP [] (Some "body") 1 s) = Return (reply 404) /\
  attempts (trace (snd (api_post_request "u" APP [] (Some "body") 1 s)))
    = 2%nat.
Proof. split; run. Qed.

End Runs.

(** * Further properties of the core *)

Section Credentials.
Context {C : Collaborators}.
Implicit Types (s : Machine) (t : Twitch) (m : AuthType) (R : list AuthScope).

(** The header builder raises nothing but its two exceptions. *)
Lemma generate_header_raises t m R e :
  generate_header t m R = Raise e ->
  (exists msg, e = UnauthorizedException msg) \/
  (exists msg, e = MissingScopeException msg).
Proof.
  destruct m.
  - rewrite generate_header_either. discriminate.
  - rewrite generate_header_credentialed by discriminate.
    destruct (negb _); [intros [= <-]; eauto|].
    destruct (decide (R ⊆ granted t USER)) as [Hsub|Hnot].
    + now rewrite require_scopes_covered.
    + destruct (require_scopes_first_unmet (scope_prefix USER) _ _ Hnot)
        as (? & ? & ? & _ & _ & _ & ->). intros [= <-]. eauto.
  - rewrite generate_header_credentialed by discriminate.
    destruct (negb _); [intros [= <-]; eauto|].
    destruct (decide (R ⊆ granted t APP)) as [Hsub|Hnot].
    + now rewrite require_scopes_covered.
    + destruct (require_scopes_first_unmet (scope_prefix APP) _ _ Hnot)
        as (? & ? & ? & _ & _ & _ & ->). intros [= <-]. eauto.
Qed.

(** X1. [set_user_authentication] refuses a missing refresh token while
    auto-refresh is on, with [ValueError] and nothing changed. Otherwise it
    installs the user credential without touching the app credential or the
    network: the user token becomes the used token, and User-mode headers
    for any subset of the given scopes carry it. *)
Theorem set_user_authentication_effect token scope refresh_token s :
  if bool_decide (refresh_token = None) && auto_refresh_auth (client s) then
    exists msg,
      set_user_authentication token scope refresh_token s
        = (Raise (ValueError msg), s)
  else
    exists t',
      set_user_authentication token scope refresh_token s
        = (Return tt, {| client := t'; world := world s; trace := trace s |}) /\
      has_user_auth t' = true /\
      get_user_auth_token t' = Some token /\
      get_used_token t' = Some token /\
      user_auth_refresh_token t' = refresh_token /\
      user_auth_scope t' = scope /\
      get_app_token t' = get_app_token (client s) /\
      has_app_auth t' = has_app_auth (client s) /\
      app_auth_scope t' = app_auth_scope (client s) /\
      auto_refresh_auth t' = auto_refresh_auth (client s) /\
      forall R, R ⊆ scope ->
        generate_header t' USER R = Return (bearer_header t' (Some token)).
Proof.
  unfold set_user_authentication, bind, read.
  destruct (bool_decide (refresh_token = None) && auto_refresh_auth (client s)).
  - eexists. reflexivity.
  - eexists. split; [reflexivity|]. cbn. repeat split.
    intros R HR. rewrite generate_header_credentialed by discriminate. cbn.
    now rewrite require_scopes_covered.
Qed.

(** X2. [authenticate_app] against a token endpoint that answers 200 with
    an [access_token]: one token request carrying the requested scopes, after
    which the app credential is installed with that token and those scopes,
    the user credential is as before, and App-mode headers for any subset of
    the scopes carry the new token. *)
Theorem authenticate_app_installs scope s fields tok :
  let t1 := set_app_auth_scope scope (client s) in
  let result :=
    fst (requests_request POST (app_token_url t1) None None (world s)) in
  status_code result = 200 -> json result = Some (JDict fields) ->
  fields !! "access_token" = Some tok ->
  exists t',
    authenticate_app scope s =
      (Return tt,
       {| client := t';
          world := snd (requests_request POST (app_token_url t1) None None
                                         (world s));
          trace := trace s ++ [AppTokenRequest (app_token_url t1)] |}) /\
    has_app_auth t' = true /\ get_app_token t' = as_token tok /\
    app_auth_scope t' = scope /\
    has_user_auth t' = has_user_auth (client s) /\
    get_user_auth_token t' = get_user_auth_token (client s) /\
    user_auth_refresh_token t' = user_auth_refresh_token (client s) /\
    user_auth_scope t' = user_auth_scope (client s) /\
    forall R, R ⊆ scope ->
      generate_header t' APP R = Return (bearer_header t' (as_token tok)).
Proof.
  intros t1 result Hcode Hjson Htok.
  unfold authenticate_app, bind at 1, modify.
  set (s0 := {| client := set_app_auth_scope scope (client s) |}).
  unfold bind at 1.
  destruct (generate_app_token_run s0) as (o & t' & -> & Ho).
  assert (Hanswer : token_answer s0 = result) by reflexivity.
  rewrite Hanswer in Ho. subst s0. cbn [client world trace] in *.
  fold t1 in Ho |- *.
  destruct o as [[]|e].
  - destruct Ho as (_ & fields' & tok' & Hjson' & Htok' & ->).
    assert (fields' = fields) as -> by congruence.
    assert (tok' = tok) as -> by congruence.
    unfold modify. cbn [client world trace].
    eexists. split; [reflexivity|]. cbn. repeat split.
    intros R HR. rewrite generate_header_credentialed by discriminate. cbn.
    now rewrite require_scopes_covered.
  - exfalso.
    destruct Ho as (_ & [([Hf|[Hf|(fields' & Hf & Hf')]] & _)
                        |(_ & msg & Hf & _)]); congruence.
Qed.

(** X3. [__generate_app_token] logs exactly one token request and decides
    on the answer, in this order: a status other than 200 raises
    [TwitchAuthorizationException]; a body that does not parse raises
    [TwitchAuthorizationException]; a body that decodes to something other
    than a dict raises the [TypeError] of the subscript, which the method
    does not catch; a dict without [access_token] raises
    [TwitchAuthorizationException]; otherwise the value of [access_token]
    becomes the app token and nothing else changes. Every failure leaves the
    client, old token included, as it was. *)
Theorem generate_app_token_outcome s :
  let result :=
    fst (requests_request POST (app_token_url (client s)) None None (world s)) in
  let s' := snd (generate_app_token s) in
  trace s' = trace s ++ [AppTokenRequest (app_token_url (client s))] /\
  if status_code result =? 200 then
    match json result with
    | Some (JDict fields) =>
        match fields !! "access_token" with
        | Some tok =>
            fst (generate_app_token s) = Return tt /\
            client s' = set_app_auth_token (as_token tok) (client s)
        | None =>
            (exists msg, fst (generate_app_token s)
                         = Raise (TwitchAuthorizationException msg)) /\
            client s' = client s
        end
    | Some (JNotDict type_error) =>
        fst (generate_app_token s) = Raise (TypeError type_error) /\
        client s' = client s
    | None =>
        (exists msg, fst (generate_app_token s)
                     = Raise (TwitchAuthorizationException msg)) /\
        client s' = client s
    end
  else
    (exists msg, fst (generate_app_token s)
                 = Raise (TwitchAuthorizationException msg)) /\
    client s' = client s.
Proof.
  intros result s'. subst s'.
  destruct (generate_app_token_run s) as (o & t' & -> & Ho).
  assert (Hanswer : token_answer s = result) by reflexivity.
  rewrite Hanswer in Ho. unfold app_token_failure, token_refused in Ho.
  cbn [fst snd trace client].
  split; [reflexivity|].
  destruct o as [[]|e].
  - destruct Ho as (Hcode & fields & tok & -> & -> & ->).
    rewrite Hcode. cbn. auto.
  - destruct Ho as (-> & Hfail).
    destruct (status_code result =? 200) eqn:Hcode.
    + apply Z.eqb_eq in Hcode.
      destruct Hfail as [([Hf|[Hf|(fields & Hf & Hf')]] & msg & ->)
                        |(_ & msg & Hf & ->)];
        [congruence|rewrite Hf; eauto|rewrite Hf, Hf'; eauto|rewrite Hf; auto].
    + apply Z.eqb_neq in Hcode.
      destruct Hfail as [(_ & msg & ->)|(Hf & _)]; [eauto|congruence].
Qed.

End Credentials.

Section Runs_of_the_executor.
Context {C : Collaborators}.
Implicit Types (s : Machine) (t : Twitch) (m : AuthType) (R : list AuthScope)
  (verb : Method) (url : string) (data : option Body) (r : Z).

Lemma same_up_to_tokens_trans t1 t2 t3 :
  same_up_to_tokens t1 t2 -> same_up_to_tokens t2 t3 -> same_up_to_tokens t1 t3.
Proof.
  unfold same_up_to_tokens. intros (?&?&?&?&?&?&?) (?&?&?&?&?&?&?).
  repeat split; congruence.
Qed.

Lemma attempts_app (l1 l2 : list Event) :
  attempts (l1 ++ l2) = (attempts l1 + attempts l2)%nat.
Proof. unfold attempts. now rewrite filter_app, length_app. Qed.

(** The ways one turn of an executor can go. *)
Lemma api_request_step verb url m R data r s :
  (exists e,
     generate_header (client s) m R = Raise e /\
     api_request verb url m R data r s = (Raise e, s)) \/
  exists h resp s1,
    generate_header (client s) m R = Return h /\
    sent s verb url h data = (resp, s1) /\
    client s1 = client s /\
    trace s1 = trace s ++ [Attempt verb url h data] /\
    ( (api_request verb url m R data r s = (Return resp, s1) /\
       (auto_refresh_auth (client s) = true ->
        status_code resp <> 503 /\ (r > 0 -> status_code resp <> 401)))
      \/ (auto_refresh_auth (client s) = true /\ ~ r > 0 /\
          status_code resp = 503 /\
          api_request verb url m R data r s = (Raise backend_error, s1))
      \/ (auto_refresh_auth (client s) = true /\ r > 0 /\
          status_code resp = 503 /\
          api_request verb url m R data r s
            = api_request verb url m R data 0 s1)
      \/ (auto_refresh_auth (client s) = true /\ r > 0 /\
          status_code resp = 401 /\
          exists o t' w',
            let s2 := {| client := t'; world := w';
                         trace := trace s1 ++ [refresh_event (client s)] |} in
            refresh_used_token s1 = (o, s2) /\
            same_up_to_tokens (client s) t' /\
            (if has_user_auth (client s)
             then app_auth_token t' = app_auth_token (client s)
             else user_auth_token t' = user_auth_token (client s) /\
                  user_auth_refresh_token t'
                    = user_auth_refresh_token (client s)) /\
            match o with
            | Return _ =>
                api_request verb url m R data r s
                  = api_request verb url m R data (r - 1) s2
            | Raise e =>
                api_request verb url m R data r s = (Raise e, s2) /\
                t' = client s /\
                if has_user_auth (client s)
                then refresh_access_token
                       (user_auth_refresh_token (client s))
                       (app_id (client s)) (app_secret (client s)) (world s1)
                     = (Raise e, w')
                else app_token_failure (token_answer s1) e
            end) ).
Proof.
  destruct (generate_header (client s) m R) as [h|e] eqn:Hh.
  2:{ left. exists e. split; [reflexivity|].
      now apply api_request_header_failure. }
  right. destruct (sent s verb url h data) as [resp s1] eqn:Hsent.
  destruct (api_request_sent verb url m R data r s h resp s1 Hh Hsent)
    as (Hc1 & Ht1 & Hrun).
  exists h, resp, s1. repeat (split; [first [reflexivity|assumption]|]).
  rewrite Hrun. clear Hrun.
  destruct (auto_refresh_auth (client s)); [|left; split; [reflexivity|discriminate]].
  destruct (decide (r > 0)) as [Hr|Hr].
  - destruct (status_code resp =? 401) eqn:H401.
    + apply Z.eqb_eq in H401. right. right. right.
      repeat (split; [first [reflexivity|assumption]|]).
      destruct (refresh_used_token_run s1)
        as (o & t' & w' & Href & Hsame & Hkeep & Ho).
      rewrite Hc1 in Href, Hsame, Hkeep, Ho.
      exists o, t', w'. cbn zeta. split; [exact Href|].
      split; [exact Hsame|]. split; [exact Hkeep|].
      unfold bind. rewrite Href. destruct o as [[]|e]; [reflexivity|].
      split; [reflexivity|exact Ho].
    + apply Z.eqb_neq in H401.
      destruct (status_code resp =? 503) eqn:H503.
      * apply Z.eqb_eq in H503. right. right. left. auto.
      * apply Z.eqb_neq in H503. left. auto.
  - destruct (status_code resp =? 503) eqn:H503.
    + apply Z.eqb_eq in H503. right. left. auto.
    + apply Z.eqb_neq in H503. left. split; [reflexivity|].
      intros _. split; [assumption|]. intros; contradiction.
Qed.

(** X4. A response whose status is neither 401 nor 503 ends the call at
    once, whatever the budget and the auto-refresh setting: it is returned
    as it is after that single request, and the client is unchanged. *)
Theorem other_status_passes_through verb url m R data r s h :
  generate_header (client s) m R = Return h ->
  status_code (fst (sent s verb url h data)) <> 401 ->
  status_code (fst (sent s verb url h data)) <> 503 ->
  api_request verb url m R data r s
    = (Return (fst (sent s verb url h data)), snd (sent s verb url h data)) /\
  client (snd (sent s verb url h data)) = client s /\
  trace (snd (sent s verb url h data)) = trace s ++ [Attempt verb url h data].
Proof.
  intros Hh H401 H503.
  destruct (sent s verb url h data) as [resp s1] eqn:Hsent. cbn [fst snd] in *.
  destruct (api_request_sent verb url m R data r s h resp s1 Hh Hsent)
    as (Hc1 & Ht1 & ->).
  apply Z.eqb_neq in H401, H503. rewrite H401, H503.
  split; [|split; assumption].
  destruct (auto_refresh_auth (client s)); [|reflexivity].
  now destruct (decide (r > 0)).
Qed.

(** X5. With auto-refresh on, an executor never hands a 503 response to its
    caller, and with a positive budget a 401 is only ever returned as the
    answer to a resend: at least two requests went out. *)
Theorem returned_status_with_auto_refresh verb url m R data r s resp s' :
  auto_refresh_auth (client s) = true ->
  api_request verb url m R data r s = (Return resp, s') ->
  status_code resp <> 503 /\
  (attempts (trace s) + 1 <= attempts (trace s'))%nat /\
  (r > 0 -> status_code resp = 401 ->
   (attempts (trace s) + 2 <= attempts (trace s'))%nat).
Proof.
  remember (Z.to_nat r) as n eqn:Hn. revert r s Hn.
  induction n as [n IH] using lt_wf_ind. intros r s Hn Hauto Hrun.
  destruct (api_request_step verb url m R data r s)
    as [(e & _ & He)|(h & resp1 & s1 & _ & _ & Hc1 & Ht1 & Hcase)];
    [congruence|].
  assert (Hone : attempts (trace s1) = (attempts (trace s) + 1)%nat)
    by (rewrite Ht1, attempts_app; reflexivity).
  destruct Hcase as [(Hret & Hst)|[(_ & _ & _ & Hret)|[(_ & Hr & _ & Hrec)
                    |(_ & Hr & _ & o & t' & w' & Href & Hsame & _ & Ho)]]].
  - rewrite Hret in Hrun. injection Hrun as <- <-.
    destruct (Hst Hauto) as [H503 H401]. split; [assumption|].
    split; [lia|]. intros Hr Hcode. now destruct (H401 Hr).
  - congruence.
  - rewrite Hrec in Hrun.
    destruct (IH (Z.to_nat 0) ltac:(lia) 0 s1 eq_refl
                 ltac:(now rewrite Hc1) Hrun) as (H503 & Hge & _).
    split; [assumption|]. split; lia.
  - cbn zeta in Href, Ho. destruct o as [[]|e]; [|destruct Ho; congruence].
    rewrite Ho in Hrun.
    destruct Hsame as (_ & _ & _ & _ & _ & _ & Hauto').
    apply (IH (Z.to_nat (r - 1)) ltac:(lia) (r - 1) _ eq_refl) in Hrun
      as (H503 & Hge & _); [|cbn [client]; congruence].
    cbn [trace] in Hge. rewrite attempts_app in Hge.
    split; [assumption|]. split; lia.
Qed.

(** X6. Whatever happens during a call, an executor changes nothing of the
    client but tokens, and only those of the credential [get_used_token]
    designates: ids, scopes, the two flags and the auto-refresh setting are
    as before, and so is the app token when a user credential is installed,
    or the user token pair when none is. *)
Theorem executor_changes_tokens_only verb url m R data r s :
  let t' := client (snd (api_request verb url m R data r s)) in
  same_up_to_tokens (client s) t' /\
  (if has_user_auth (client s)
   then app_auth_token t' = app_auth_token (client s)
   else user_auth_token t' = user_auth_token (client s) /\
        user_auth_refresh_token t' = user_auth_refresh_token (client s)).
Proof.
  cbn zeta. remember (Z.to_nat r) as n eqn:Hn. revert r s Hn.
  induction n as [n IH] using lt_wf_ind. intros r s Hn.
  assert (Hsame0 : forall s1, client s1 = client s ->
    same_up_to_tokens (client s) (client s1) /\
    (if has_user_auth (client s)
     then app_auth_token (client s1) = app_auth_token (client s)
     else user_auth_token (client s1) = user_auth_token (client s) /\
          user_auth_refresh_token (client s1)
            = user_auth_refresh_token (client s))).
  { intros s1 ->. split; [apply same_up_to_tokens_refl|].
    now destruct (has_user_auth (client s)). }
  destruct (api_request_step verb url m R data r s)
    as [(e & _ & ->)|(h & resp1 & s1 & _ & _ & Hc1 & _ & Hcase)];
    [now apply Hsame0|].
  destruct Hcase as [(-> & _)|[(_ & _ & _ & ->)|[(_ & Hr & _ & ->)
                    |(_ & Hr & _ & o & t' & w' & Href & Hsame & Hkeep & Ho)]]].
  - now apply Hsame0.
  - now apply Hsame0.
  - rewrite <- Hc1.
    apply (IH (Z.to_nat 0) ltac:(lia) 0 s1 eq_refl).
  - cbn zeta in Ho. destruct o as [[]|e].
    + rewrite Ho.
      destruct (IH (Z.to_nat (r - 1)) ltac:(lia) (r - 1)
                  {| client := t'; world := w';
                     trace := trace s1 ++ [refresh_event (client s)] |}
                  eq_refl) as (Hsame' & Hkeep').
      cbn [client] in *. split; [now apply (same_up_to_tokens_trans _ t')|].
      destruct Hsame as (_ & _ & _ & _ & _ & Hhu & _). rewrite Hhu in Hkeep'.
      destruct (has_user_auth (client s)); [congruence|].
      destruct Hkeep, Hkeep'. split; congruence.
    + destruct Ho as (-> & -> & _). now apply Hsame0.
Qed.

(** X7. A required scope the installed credential lacks stops an App- or
    User-mode call in the header builder: the executor raises
    [MissingScopeException] naming a required scope that is not granted, and
    machine, world and log are untouched, so nothing was sent. *)
Theorem missing_scope_fails_fast verb url m R data r s :
  m <> NONE -> installed (client s) m = true ->
  ~ R ⊆ granted (client s) m ->
  exists sc,
    sc ∈ R /\ (sc ∉ granted (client s) m) /\
    api_request verb url m R data r s
      = (Raise (MissingScopeException (scope_prefix m +:+ scope_name sc)), s).
Proof.
  intros Hm Hinst Hnot.
  destruct (require_scopes_first_unmet (scope_prefix m) _ _ Hnot)
    as (pre & sc & post & HR & _ & Hsc & Hrun).
  exists sc. split; [rewrite HR; apply elem_of_app; right; now left|].
  split; [assumption|]. apply api_request_header_failure.
  rewrite generate_header_credentialed by assumption.
  now rewrite Hinst, Hrun.
Qed.

(** X8. After a 401 and a successful refresh the request is built again
    from the refreshed client: a User-mode call, and an App-mode call on a
    client without user credential, is resent with the new token; an
    App-mode call on a client that also has a user credential is resent
    with the very header that was rejected. *)
Theorem resend_header_after_refresh verb url m R data r s h resp s1 s2 :
  auto_refresh_auth (client s) = true -> r > 0 ->
  generate_header (client s) m R = Return h ->
  sent s verb url h data = (resp, s1) -> status_code resp = 401 ->
  refresh_used_token s1 = (Return tt, s2) ->
  exists h2 log,
    generate_header (client s2) m R = Return h2 /\
    trace (snd (api_request verb url m R data r s))
      = trace s ++ Attempt verb url h data :: refresh_event (client s)
                   :: Attempt verb url h2 data :: log /\
    (m = USER -> h2 = bearer_header (client s) (get_used_token (client s2))) /\
    (m = APP ->
     h2 = if has_user_auth (client s) then h
          else bearer_header (client s) (get_used_token (client s2))).
Proof.
  intros Hauto Hr Hh Hsent Hcode Href.
  destruct (api_request_401_refresh verb url m R data r s h resp s1)
    as (Hrun & o & t' & w' & Href' & Hsame & Hkeep & _); try assumption.
  rewrite Href in Href'. injection Href' as <- ->.
  destruct (generate_header_same_up_to_tokens _ t' m R Hsame) as [h2 Hh2];
    [eauto|].
  set (s2 := {| client := t' |}) in *.
  destruct (api_request_first_attempt verb url m R data (r - 1) s2 h2 Hh2)
    as (log & Hlog).
  exists h2, log. split; [exact Hh2|]. split.
  - rewrite Hrun. unfold bind. rewrite Href. rewrite Hlog. subst s2.
    cbn [trace]. now rewrite <- app_assoc.
  - destruct Hsame as (Hid & _ & Has & Hha & Hus & Hhu & _).
    unfold get_used_token, bearer_header, base_header. cbn [client].
    split; intros ->.
    + revert Hh Hh2. rewrite !generate_header_credentialed by discriminate.
      cbn. rewrite Hhu, Hus.
      destruct (has_user_auth (client s)); [|discriminate].
      cbn. destruct (require_scopes _ _ _); [|discriminate].
      intros _ [= <-]. unfold bearer_header, base_header. now rewrite Hid.
    + revert Hh Hh2. rewrite !generate_header_credentialed by discriminate.
      cbn. rewrite Hha, Has.
      destruct (has_app_auth (client s)); [|discriminate].
      cbn. destruct (require_scopes _ _ _); [|discriminate].
      intros [= <-] [= <-]. unfold bearer_header, base_header. rewrite Hid.
      rewrite Hhu. destruct (has_user_auth (client s)); [|reflexivity].
      now rewrite Hkeep.
Qed.

(** X9. The exceptions an executor can raise while every request it makes
    is answered: the two of the header builder; and, with auto-refresh on
    only, [TwitchBackendException], and the exception of the refresh, which
    on a client without user credential is the
    [TwitchAuthorizationException] or the [TypeError] of
    [__generate_app_token] on some answer of the token endpoint, and on a
    client with one is what [oauth.refresh_access_token] raised. *)
Theorem executor_exceptions verb url m R data r s e s' :
  api_request verb url m R data r s = (Raise e, s') ->
  (exists msg, e = UnauthorizedException msg) \/
  (exists msg, e = MissingScopeException msg) \/
  auto_refresh_auth (client s) = true /\
  (e = backend_error \/
   (has_user_auth (client s) = false /\
    exists answer,
      app_token_failure answer e /\
      ((exists msg, e = TwitchAuthorizationException msg) \/
       (exists msg, e = TypeError msg))) \/
   has_user_auth (client s) = true /\
   exists refresh_token w w',
     refresh_access_token refresh_token (app_id (client s))
       (app_secret (client s)) w = (Raise e, w')).
Proof.
  remember (Z.to_nat r) as n eqn:Hn. revert r s Hn.
  induction n as [n IH] using lt_wf_ind. intros r s Hn Hrun.
  destruct (api_request_step verb url m R data r s)
    as [(e0 & Hh & He)|(h & resp1 & s1 & _ & _ & Hc1 & _ & Hcase)].
  - rewrite He in Hrun. injection Hrun as <- <-.
    destruct (generate_header_raises _ _ _ _ Hh); auto.
  - destruct Hcase as [(Hret & _)|[(Hauto & _ & _ & Hret)|[(Hauto & Hr & _ & Hrec)
                      |(Hauto & Hr & _ & o & t' & w' & Href & Hsame & _ & Ho)]]].
    + congruence.
    + rewrite Hret in Hrun. injection Hrun as <- <-. auto.
    + rewrite Hrec in Hrun.
      apply (IH (Z.to_nat 0) ltac:(lia) 0 s1 eq_refl) in Hrun.
      now rewrite Hc1 in Hrun.
    + cbn zeta in Ho. destruct o as [[]|e0].
      * rewrite Ho in Hrun.
        apply (IH (Z.to_nat (r - 1)) ltac:(lia) (r - 1) _ eq_refl) in Hrun.
        cbn [client] in Hrun.
        destruct Hsame as (Hid & Hsec & _ & _ & _ & Hhu & Hau).
        now rewrite Hid, Hsec, Hhu, Hau in Hrun.
      * destruct Ho as (Hret & _ & Hwhy). rewrite Hret in Hrun.
        injection Hrun as <- <-. right. right. split; [assumption|].
        right. destruct (has_user_auth (client s)).
        -- right. split; [reflexivity|]. eauto.
        -- left. split; [reflexivity|]. exists (token_answer s1).
           split; [exact Hwhy|].
           destruct Hwhy as [(_ & msg & ->)|(_ & msg & _ & ->)]; eauto.
Qed.

End Runs_of_the_executor.

(** * Properties of the endpoint methods *)

Section Endpoint_properties.
Context {C : Collaborators} {H : Helpers}.
Implicit Types (s : Machine).

(** A continuation that leaves the machine alone does not change where a
    computation ends. *)
Lemma bind_pure_machine {A B} (c : M A) (k : A -> M B) s :
  (forall a s0, snd (k a s0) = s0) -> snd (bind c k s) = snd (c s).
Proof.
  intros Hk. unfold bind. destruct (c s) as [[a|e] s1]; [apply Hk|reflexivity].
Qed.

Lemma response_json_machine (r : Response) s : snd (response_json r s) = s.
Proof. unfold response_json. now destruct (json r). Qed.

Lemma response_json_then_machine {B} (r : Response)
    (f : JsonDoc -> B) s :
  snd (bind (response_json r) (fun d => ret (f d)) s) = s.
Proof.
  rewrite bind_pure_machine by reflexivity. apply response_json_machine.
Qed.

(** The log of an executor call with the default budget, followed by
    decoding. *)
Lemma default_call_log {B} verb url m R data (k : Response -> M B) s :
  (forall a s0, snd (k a s0) = s0) ->
  exists log,
    trace (snd (bind (api_request verb url m R data 1) k s)) = trace s ++ log /\
    (attempts log <= 2)%nat /\ (refreshes log <= 1)%nat.
Proof.
  intros Hk. rewrite bind_pure_machine by assumption.
  destruct (api_request_trace verb url m R data 1 s) as (log & Ht & Ha & Hr & _).
  exists log. repeat split; [assumption|lia..].
Qed.

Lemma no_call_log s :
  exists log : list Event,
    trace s = trace s ++ log /\ (attempts log <= 2)%nat /\ (refreshes log <= 1)%nat.
Proof. exists []. rewrite app_nil_r. cbn. repeat split; lia. Qed.

(** The User-mode header of a call that requires one scope. *)
Lemma generate_header_user_scope (t : Twitch) (sc : AuthScope) :
  has_user_auth t = true -> sc ∈ user_auth_scope t ->
  generate_header t USER [sc] = Return (bearer_header t (user_auth_token t)).
Proof.
  intros Huser Hscope. rewrite generate_header_credentialed by discriminate.
  cbn [installed granted selected_token scope_prefix]. rewrite Huser.
  cbn [negb]. rewrite require_scopes_covered; [reflexivity|].
  intros x Hx. apply list_elem_of_singleton in Hx. now subst.
Qed.

(** The first request of an endpoint call whose header builds. *)
Lemma default_call_first {B} verb url m R data (k : Response -> M B) s h :
  (forall a s0, snd (k a s0) = s0) ->
  generate_header (client s) m R = Return h ->
  exists log,
    trace (snd (bind (api_request verb url m R data 1) k s))
      = trace s ++ Attempt verb url h data :: log.
Proof.
  intros Hk Hh. rewrite bind_pure_machine by assumption.
  now apply api_request_first_attempt.
Qed.

(** An endpoint call whose header does not build. *)
Lemma default_call_refused {B} verb url m R data (k : Response -> M B) s e :
  generate_header (client s) m R = Raise e ->
  bind (api_request verb url m R data 1) k s = (Raise e, s).
Proof.
  intros Hh. unfold bind.
  now rewrite (api_request_header_failure _ _ _ _ _ _ _ _ Hh).
Qed.

(** X10. [modify_channel_information] cannot succeed: without any optional
    argument it raises its own [ValueError], and with one the dict
    comprehension that builds the body iterates the keys of the dict and
    fails to unpack the first one, [game_id], into a pair. Either way a
    [ValueError] is raised before anything is sent and the machine is
    untouched. *)
Theorem modify_channel_information_always_fails
    broadcaster_id game_id broadcaster_language title s :
  modify_channel_information broadcaster_id game_id broadcaster_language title s
    = (Raise (ValueError
                (if bool_decide (game_id = None)
                    && bool_decide (broadcaster_language = None)
                    && bool_decide (title = None)
                 then "You need to specify at least one of the optional parameter"
                 else "too many values to unpack (expected 2)")), s).
Proof.
  unfold modify_channel_information.
  destruct (bool_decide (game_id = None) && bool_decide (broadcaster_language = None)
            && bool_decide (title = None)); reflexivity.
Qed.

(** X11. [get_clips] sends a request only when exactly one of [clip_id],
    [broadcaster_id], [game_id] is given, at most 100 clip ids are asked for
    and [first] is between 1 and 100; otherwise it raises [ValueError] with
    the machine untouched. When the arguments pass and an app credential is
    installed, the first thing logged is a GET with the app token. *)
Theorem get_clips_arguments
    broadcaster_id game_id clip_id after before ended_at started_at first s :
  let one_selector :=
    match clip_id, broadcaster_id, game_id with
    | Some _, None, None | None, Some _, None | None, None, Some _ => true
    | _, _, _ => false
    end in
  if one_selector && (opt_len clip_id <=? 100) && (1 <=? first) && (first <=? 100)
  then
    has_app_auth (client s) = true ->
    exists url log,
      trace (snd (get_clips broadcaster_id game_id clip_id after before
                            ended_at started_at first s))
        = trace s ++
          Attempt GET url (bearer_header (client s) (app_auth_token (client s)))
                  None :: log
  else
    exists msg,
      get_clips broadcaster_id game_id clip_id after before
                ended_at started_at first s
        = (Raise (ValueError msg), s).
Proof.
  cbn zeta. unfold get_clips.
  destruct (opt_len clip_id >? 100) eqn:Hlen.
  - assert ((opt_len clip_id <=? 100) = false) as -> by lia.
    rewrite andb_false_r. cbn.
    destruct clip_id as [l|]; [|cbn in Hlen; lia].
    rewrite bool_decide_eq_false_2 by discriminate. cbn. eauto.
  - assert ((opt_len clip_id <=? 100) = true) as -> by lia.
    rewrite andb_false_r, andb_true_r.
    destruct clip_id as [l|], broadcaster_id as [b|], game_id as [g|]; cbn;
      eauto;
      (destruct (first <? 1) eqn:H1;
       [assert ((1 <=? first) = false) as -> by lia; cbn; eauto|];
       assert ((1 <=? first) = true) as -> by lia; cbn;
       destruct (first >? 100) eqn:H2;
       [assert ((first <=? 100) = false) as -> by lia; cbn; eauto|];
       assert ((first <=? 100) = true) as -> by lia; cbn;
       intros Happ; eexists;
       apply default_call_first;
       [intros a s0; apply response_json_then_machine
       |rewrite generate_header_credentialed by discriminate; cbn;
        now rewrite Happ]).
Qed.

(** X12. [get_users] picks its auth mode from its arguments: with neither
    [user_ids] nor [logins] it is a User-mode call, and is refused without a
    user credential even when an app credential is installed; with either
    argument it is an App-mode call, and is refused without an app
    credential even when a user credential is installed. More than 100
    entries in total raise [ValueError]. A refused call leaves the machine
    untouched; an accepted one starts with a GET carrying the token of the
    mode. *)
Theorem get_users_auth_mode user_ids logins s :
  let url :=
    build_url_params (TWITCH_API_BASE_URL +:+ "users")
      [ ("id", opt_list user_ids); ("login", opt_list logins) ] true true in
  if opt_len user_ids + opt_len logins >? 100 then
    exists msg, get_users user_ids logins s = (Raise (ValueError msg), s)
  else
    match user_ids, logins with
    | None, None =>
        if has_user_auth (client s) then
          exists log,
            trace (snd (get_users user_ids logins s))
              = trace s ++
                Attempt GET url
                  (bearer_header (client s) (user_auth_token (client s)))
                  None :: log
        else
          get_users user_ids logins s
            = (Raise (UnauthorizedException "require user authentication!"), s)
    | _, _ =>
        if has_app_auth (client s) then
          exists log,
            trace (snd (get_users user_ids logins s))
              = trace s ++
                Attempt GET url
                  (bearer_header (client s) (app_auth_token (client s)))
                  None :: log
        else
          get_users user_ids logins s
            = (Raise (UnauthorizedException "Require app authentication!"), s)
    end.
Proof.
  cbn zeta. unfold get_users.
  destruct (opt_len user_ids + opt_len logins >? 100); [eauto|].
  destruct user_ids as [ids|], logins as [ls|]; cbn [bool_decide andb];
    try rewrite !bool_decide_eq_false_2 by discriminate;
    try rewrite !bool_decide_eq_true_2 by reflexivity; cbn [andb];
    unfold api_get_request;
    match goal with
    | |- context [has_user_auth ?t] =>
        destruct (has_user_auth t) eqn:Hcred
    | |- context [has_app_auth ?t] =>
        destruct (has_app_auth t) eqn:Hcred
    end;
    first
      [ apply default_call_first;
        [intros; apply response_json_machine
        |rewrite generate_header_credentialed by discriminate; cbn;
         now rewrite Hcred]
      | apply default_call_refused;
        rewrite generate_header_credentialed by discriminate; cbn;
        now rewrite Hcred ].
Qed.

(** X13. [get_games] needs at least one of [game_ids] and [names] and at
    most 100 entries in total; otherwise it raises [ValueError] with the
    machine untouched. A call that passes is an App-mode GET. *)
Theorem get_games_arguments game_ids names s :
  let url :=
    build_url_params (TWITCH_API_BASE_URL +:+ "games")
      [ ("id", opt_list game_ids); ("name", opt_list names) ] true true in
  match game_ids, names with
  | None, None =>
      exists msg, get_games game_ids names s = (Raise (ValueError msg), s)
  | _, _ =>
      if opt_len game_ids + opt_len names <=? 100 then
        has_app_auth (client s) = true ->
        exists log,
          trace (snd (get_games game_ids names s))
            = trace s ++
              Attempt GET url
                (bearer_header (client s) (app_auth_token (client s)))
                None :: log
      else
        exists msg, get_games game_ids names s = (Raise (ValueError msg), s)
  end.
Proof.
  cbn zeta. unfold get_games.
  destruct game_ids as [ids|], names as [ns|]; cbn [bool_decide andb];
    try rewrite !bool_decide_eq_false_2 by discriminate;
    try rewrite !bool_decide_eq_true_2 by reflexivity; cbn [andb];
    eauto;
    match goal with
    | |- context [?a + ?b >? 100] =>
        destruct (a + b >? 100) eqn:Hlen;
        [assert ((a + b <=? 100) = false) as -> by lia; eauto|];
        assert ((a + b <=? 100) = true) as -> by lia
    end;
    intros Happ; unfold api_get_request; apply default_call_first;
    try (intros; apply response_json_machine);
    rewrite generate_header_credentialed by discriminate; cbn;
    now rewrite Happ.
Qed.

(** X14. [start_commercial] accepts exactly the lengths that are multiples
    of 30 from 30 to 180; any other length raises [ValueError] with the
    machine untouched. An accepted call is a User-mode POST that requires
    the scope [CHANNEL_EDIT_COMMERCIAL]. *)
Theorem start_commercial_lengths broadcaster_id length s :
  let url :=
    build_url_params (TWITCH_API_BASE_URL +:+ "channels/commercial")
      [ ("broadcaster_id", PStr broadcaster_id); ("length", PInt length) ]
      false false in
  if (30 <=? length) && (length <=? 180) && (length mod 30 =? 0) then
    start_commercial broadcaster_id length s
      = bind (api_post_request url USER [CHANNEL_EDIT_COMMERCIAL] None 1)
             response_json s /\
    (has_user_auth (client s) = true ->
     CHANNEL_EDIT_COMMERCIAL ∈ user_auth_scope (client s) ->
     exists log,
       trace (snd (start_commercial broadcaster_id length s))
         = trace s ++
           Attempt POST url
             (bearer_header (client s) (user_auth_token (client s)))
             None :: log)
  else
    exists msg,
      start_commercial broadcaster_id length s = (Raise (ValueError msg), s).
Proof.
  cbn zeta. unfold start_commercial.
  destruct ((30 <=? length) && (length <=? 180) && (length mod 30 =? 0)) eqn:Hok.
  - assert (Hin : length ∈ [30; 60; 90; 120; 150; 180]).
    { apply andb_true_iff in Hok as [Hok Hmod].
      apply andb_true_iff in Hok as [Hlo Hhi].
      apply Z.leb_le in Hlo, Hhi. apply Z.eqb_eq in Hmod.
      assert (length = 30 \/ length = 60 \/ length = 90 \/ length = 120 \/
              length = 150 \/ length = 180) as Hcases
        by (Z.div_mod_to_equations; lia).
      repeat destruct Hcases as [->|Hcases]; try subst; set_solver. }
    rewrite bool_decide_eq_true_2 by assumption. cbn [negb].
    split; [reflexivity|]. intros Huser Hscope.
    unfold api_post_request. apply default_call_first.
    + intros; apply response_json_machine.
    + now apply generate_header_user_scope.
  - assert (Hout : length ∉ [30; 60; 90; 120; 150; 180]).
    { intros Hin.
      assert (length = 30 \/ length = 60 \/ length = 90 \/ length = 120 \/
              length = 150 \/ length = 180) as Hcases.
      { rewrite !elem_of_cons in Hin. rewrite elem_of_nil in Hin. tauto. }
      repeat destruct Hcases as [->|Hcases]; try subst; discriminate. }
    rewrite bool_decide_eq_false_2 by assumption. cbn [negb]. eauto.
Qed.

(** X15. [replace_stream_tags] does not look at the response: whenever the
    executor returns one, whatever its status, the result is the empty
    dict. With auto-refresh off and a user credential holding
    [USER_EDIT_BROADCAST], that is the result for every answer of the
    server, after a single PUT. More than 100 tags raise [ValueError]
    before anything is sent. *)
Theorem replace_stream_tags_ignores_response broadcaster_id tag_ids s :
  let url :=
    build_url_params (TWITCH_API_BASE_URL +:+ "streams/tags")
      [ ("broadcaster_id", PStr broadcaster_id) ] false false in
  let body := Some (json_body [ ("tag_ids", PList tag_ids) ]) in
  if Z.of_nat (length tag_ids) >? 100 then
    exists msg,
      replace_stream_tags broadcaster_id tag_ids s = (Raise (ValueError msg), s)
  else
    (forall resp s',
       api_put_request url USER [USER_EDIT_BROADCAST] body 1 s
         = (Return resp, s') ->
       replace_stream_tags broadcaster_id tag_ids s = (Return ∅, s')) /\
    (auto_refresh_auth (client s) = false ->
     has_user_auth (client s) = true ->
     USER_EDIT_BROADCAST ∈ user_auth_scope (client s) ->
     let h := bearer_header (client s) (user_auth_token (client s)) in
     replace_stream_tags broadcaster_id tag_ids s
       = (Return ∅, snd (sent s PUT url h body)) /\
     trace (snd (sent s PUT url h body)) = trace s ++ [Attempt PUT url h body]).
Proof.
  cbn zeta. unfold replace_stream_tags.
  destruct (Z.of_nat (length tag_ids) >? 100); [eauto|].
  split.
  - intros resp s' Hrun. unfold bind. now rewrite Hrun.
  - intros Hauto Huser Hscope.
    set (url := build_url_params _ _ _ _).
    set (body := Some _).
    set (h := bearer_header _ _).
    assert (Hh : generate_header (client s) USER [USER_EDIT_BROADCAST] = Return h).
    { now apply generate_header_user_scope. }
    destruct (sent s PUT url h body) as [resp s1] eqn:Hsent.
    destruct (api_request_sent PUT url USER [USER_EDIT_BROADCAST] body 1 s
                h resp s1 Hh Hsent) as (_ & Ht1 & Hrun).
    rewrite Hauto in Hrun. unfold bind, api_put_request. rewrite Hrun.
    split; [reflexivity|exact Ht1].
Qed.

(** X16. Every endpoint method modelled here sends at most two resource
    requests and makes at most one Token Refresher call, whatever its
    arguments, the client and the servers. *)
Theorem endpoints_bounded s :
  let bounded {A} (c : M A) :=
    exists log,
      trace (snd (c s)) = trace s ++ log /\
      (attempts log <= 2)%nat /\ (refreshes log <= 1)%nat in
  (forall after before first, bounded (get_top_games after before first)) /\
  (forall game_ids names, bounded (get_games game_ids names)) /\
  (forall user_ids logins, bounded (get_users user_ids logins)) /\
  (forall broadcaster_id game_id clip_id after before ended_at started_at first,
     bounded (get_clips broadcaster_id game_id clip_id after before
                        ended_at started_at first)) /\
  (forall broadcaster_id length, bounded (start_commercial broadcaster_id length)) /\
  (forall broadcaster_id tag_ids,
     bounded (replace_stream_tags broadcaster_id tag_ids)) /\
  (forall broadcaster_id game_id broadcaster_language title,
     bounded (modify_channel_information broadcaster_id game_id
                                         broadcaster_language title)).
Proof.
  cbn zeta.
  repeat split; intros.
  - unfold get_top_games. destruct (_ || _); [apply no_call_log|].
    apply default_call_log. intros; apply response_json_machine.
  - unfold get_games. destruct (_ && _); [apply no_call_log|].
    destruct (_ >? _); [apply no_call_log|].
    apply default_call_log. intros; apply response_json_machine.
  - unfold get_users. destruct (_ >? _); [apply no_call_log|].
    apply default_call_log. intros; apply response_json_machine.
  - unfold get_clips. destruct (_ && _); [apply no_call_log|].
    destruct (negb _); [apply no_call_log|].
    destruct (_ || _); [apply no_call_log|].
    apply default_call_log. intros; apply response_json_then_machine.
  - unfold start_commercial. destruct (negb _); [apply no_call_log|].
    apply default_call_log. intros; apply response_json_machine.
  - unfold replace_stream_tags. destruct (_ >? _); [apply no_call_log|].
    apply default_call_log. reflexivity.
  - unfold modify_channel_information.
    destruct (_ && _); [apply no_call_log|]. cbn. apply no_call_log.
Qed.

End Endpoint_properties.

(** ** Further runs against the scripted world *)

Section More_runs.
Local Existing Instance scripted.
Local Existing Instance scripted_helpers.

Local Ltac run := vm_compute; reflexivity.

(** A first app authentication with scope [A]. *)
Lemma authenticate_app_installs_witness :
  let s := boot fresh [] [token_reply "app1"] [] in
  fst (authenticate_app ["A"] s) = Return tt /\
  get_app_token (client (snd (authenticate_app ["A"] s))) = Some "app1" /\
  generate_header (client (snd (authenticate_app ["A"] s))) APP ["A"]
    = Return (bearer_header (client (snd (authenticate_app ["A"] s)))
                            (Some "app1")).
Proof.
  cbn zeta.
  destruct (authenticate_app_installs (C := scripted) ["A"]
              (boot fresh [] [token_reply "app1"] [])
              {[ "access_token" := JString "app1" ]} (JString "app1"))
    as (t' & Hrun & _ & Htok & _ & _ & _ & _ & _ & Hhdr); [run..|].
  rewrite Hrun. cbn [fst snd client]. split; [reflexivity|].
  split; [exact Htok|]. apply Hhdr. set_solver.
Defined.

(** A 404 is handed to the caller after one request. *)
Lemma other_status_passes_through_witness :
  fst (api_get_request "u" APP [] 1 (boot (app_client []) [reply 404] [] []))
    = Return (reply 404).
Proof.
  destruct (other_status_passes_through GET "u" APP [] None 1
              (boot (app_client []) [reply 404] [] [])
              (bearer_header (app_client []) (Some "app0")))
    as (Hrun & _); [run|vm_compute; discriminate..|].
  unfold api_get_request. rewrite Hrun. run.
Defined.

(** The 401 returned to the caller of [rejected_twice] answers a resend. *)
Lemma returned_status_with_auto_refresh_witness :
  status_code (reply 401) <> 503 /\
  (attempts (trace rejected_twice) + 2
   <= attempts (trace (snd (api_request GET "u" USER [] None 1
                              rejected_twice))))%nat.
Proof.
  destruct (returned_status_with_auto_refresh GET "u" USER [] None 1
              rejected_twice (reply 401)
              (snd (api_request GET "u" USER [] None 1 rejected_twice)))
    as (H503 & _ & H401); [run..|].
  split; [exact H503|]. apply H401; [lia|reflexivity].
Defined.

(** Scope [A] granted, [A] and [B] required. *)
Lemma missing_scope_fails_fast_witness :
  exists sc,
    sc ∈ ["A"; "B"] /\
    api_request GET "u" APP ["A"; "B"] None 1 (boot (app_client ["A"]) [] [] [])
      = (Raise (MissingScopeException ("Require app auth scope " +:+ sc)),
         boot (app_client ["A"]) [] [] []).
Proof.
  destruct (missing_scope_fails_fast (C := scripted) GET "u" APP ["A"; "B"]
              None 1 (boot (app_client ["A"]) [] [] []))
    as (sc & Hin & _ & Hrun); [discriminate|reflexivity| |].
  - intros Hsub. assert (Hb : "B" ∈ ["A"]) by (apply Hsub; set_solver).
    apply list_elem_of_singleton in Hb. discriminate.
  - exists sc. split; [exact Hin|exact Hrun].
Defined.

(** The resend of [rejected_twice] carries the refreshed user token. *)
Lemma resend_header_after_refresh_witness :
  exists h2 log,
    trace (snd (api_request GET "u" USER [] None 1 rejected_twice))
      = Attempt GET "u" (bearer_header (user_client []) (Some "user0")) None
        :: UserTokenRefresh (Some "refresh0") "id" "secret"
        :: Attempt GET "u" h2 None :: log /\
    h2 = bearer_header (user_client []) (Some "user1").
Proof.
  set (h := bearer_header (client rejected_twice) (Some "user0")).
  set (p1 := sent rejected_twice GET "u" h None).
  destruct (resend_header_after_refresh GET "u" USER [] None 1 rejected_twice
              h (fst p1) (snd p1) (snd (refresh_used_token (snd p1))))
    as (h2 & log & _ & Htrace & Huser & _); [run|lia|run..|].
  exists h2, log. split; [exact Htrace|]. rewrite (Huser eq_refl). run.
Defined.

(** The exception of [unavailable_twice] needs auto-refresh to be on. *)
Lemma executor_exceptions_witness :
  fst (api_request GET "u" APP [] None 1 unavailable_twice)
    = Raise backend_error /\
  auto_refresh_auth (client unavailable_twice) = true.
Proof.
  split; [run|].
  destruct (executor_exceptions GET "u" APP [] None 1 unavailable_twice
              backend_error
              (snd (api_request GET "u" APP [] None 1 unavailable_twice)))
    as [[msg Hm]|[[msg Hm]|[Hauto _]]]; [run|discriminate..|exact Hauto].
Defined.

(** Clips of one broadcaster. *)
Lemma get_clips_arguments_witness :
  exists url log,
    trace (snd (get_clips (Some "b") None None None None None None 20
                          (boot (app_client []) [] [] [])))
      = [] ++ Attempt GET url (bearer_header (app_client []) (Some "app0"))
                      None :: log.
Proof.
  exact (get_clips_arguments (Some "b") None None None None None None 20
           (boot (app_client []) [] [] []) eq_refl).
Defined.

(** Games by name. *)
Lemma get_games_arguments_witness :
  exists log,
    trace (snd (get_games None (Some ["chess"])
                          (boot (app_client []) [] [] [])))
      = [] ++ Attempt GET "https://api.twitch.tv/helix/games?name=chess"
                      (bearer_header (app_client []) (Some "app0")) None
              :: log.
Proof.
  exact (get_games_arguments None (Some ["chess"])
           (boot (app_client []) [] [] []) eq_refl).
Defined.

(** A commercial of 60 seconds. *)
Lemma start_commercial_lengths_witness :
  exists url log,
    trace (snd (start_commercial "b" 60
                  (boot (user_client ["CHANNEL_EDIT_COMMERCIAL"]) [] [] [])))
      = [] ++ Attempt POST url
                (bearer_header (user_client ["CHANNEL_EDIT_COMMERCIAL"])
                               (Some "user0")) None :: log.
Proof.
  eexists.
  apply (proj2 (start_commercial_lengths "b" 60
                  (boot (user_client ["CHANNEL_EDIT_COMMERCIAL"]) [] [] [])));
    [reflexivity|set_solver].
Defined.

(** A tag update the server answers with 500. *)
Lemma replace_stream_tags_ignores_response_witness :
  let s := boot (set_auto_refresh_auth false
                   (user_client ["USER_EDIT_BROADCAST"])) [reply 500] [] [] in
  fst (replace_stream_tags "b" ["t1"; "t2"] s) = Return ∅.
Proof.
  cbn zeta.
  destruct (proj2 (replace_stream_tags_ignores_response "b" ["t1"; "t2"]
                     (boot (set_auto_refresh_auth false
                              (user_client ["USER_EDIT_BROADCAST"]))
                           [reply 500] [] []))
                  eq_refl eq_refl ltac:(set_solver)) as (Hrun & _).
  now rewrite Hrun.
Defined.

(** [get_users] without arguments on a client that only has an app
    credential, and with a login on a client that only has a user
    credential: both refused. *)
Example get_users_refused :
  get_users None None (boot (app_client []) [] [] [])
    = (Raise (UnauthorizedException "require user authentication!"),
       boot (app_client []) [] [] []) /\
  get_users None (Some ["somebody"]) (boot (user_client []) [] [] [])
    = (Raise (UnauthorizedException "Require app authentication!"),
       boot (user_client []) [] [] []).
Proof. split; run. Qed.

(** [modify_channel_information] with a title. *)
Example modify_channel_information_title :
  modify_channel_information "b" None None (Some "new title")
    (boot (user_client ["USER_EDIT_BROADCAST"]) [reply 204] [] [])
  = (Raise (ValueError "too many values to unpack (expected 2)"),
     boot (user_client ["USER_EDIT_BROADCAST"]) [reply 204] [] []).
Proof. run. Qed.

End More_runs.
